(** * HoloViews pretty-printer and info reporter (holoviews/core/pprint.py)

    A shallow embedding of [ParamFilter], [InfoPrinter] and [PrettyPrinter]
    together with the properties of the textual tree they produce.

    Python objects are duck-typed: the printer probes them with [hasattr] and
    [getattr].  A node is therefore modelled as an object carrying optional
    attributes, and every attribute access that Python may reject is a
    computation in the [outcome] monad below. *)

From Stdlib Require Import ZArith Lia Ascii String List Bool.
From stdpp Require Import base strings list gmap sorting.
Import ListNotations.

Local Open Scope Z_scope.

(** ** Exceptions and the outcome of a call *)

Inductive exn : Type :=
| AttributeError (attr : string)
| IndexError
| TypeError
| KeyError (k : string)
| ValueError.

(** [OutOfFuel] is an artefact of the bounded recursion of the model; the
    section on termination shows that [pprint] never produces it. *)
Inductive outcome (A : Type) : Type :=
| Ok (a : A)
| Raise (e : exn)
| OutOfFuel.

Arguments Ok {A} a.
Arguments Raise {A} e.
Arguments OutOfFuel {A}.

Definition bind {A B : Type} (m : outcome A) (k : A -> outcome B) : outcome B :=
  match m with
  | Ok a => k a
  | Raise e => Raise e
  | OutOfFuel => OutOfFuel
  end.

Notation "'let*' p ':=' m 'in' k" := (bind m (fun p => k))
  (at level 10, p pattern, m at level 100, k at level 200).

(** [below r1 r2]: [r2] is what [r1] becomes once it has enough fuel. *)
Definition below {A : Type} (r1 r2 : outcome A) : Prop :=
  r1 = OutOfFuel \/ r1 = r2.

(** The call returned or raised. *)
Definition finished {A : Type} (r : outcome A) : Prop := r <> OutOfFuel.

(** ** Python strings and sequences *)

Module Py.

(** ["\n"] *)
Definition nl : string := String (ascii_of_nat 10) EmptyString.

(** [sep.join(items)] *)
Definition join (sep : string) (items : list string) : string :=
  String.concat sep items.

(** [n * s] for an integer [n]: the empty string when [n <= 0]. *)
Fixpoint repeat_nat (s : string) (n : nat) : string :=
  match n with
  | O => ""
  | S n' => s +:+ repeat_nat s n'
  end.

Definition repeat (n : Z) (s : string) : string := repeat_nat s (Z.to_nat n).

(** [s.ljust(width)]: pad with spaces on the right up to [width]. *)
Definition ljust (s : string) (width : nat) : string :=
  s +:+ repeat_nat " " (width - String.length s)%nat.

(** [max(len(p) for p in items)] on a non-empty sequence. *)
Definition max_len (items : list string) : nat :=
  list_max (map String.length items).

(** the tab character *)
Definition tabchar : string := String (ascii_of_nat 9) EmptyString.

(** [s.lower()] on ASCII letters *)
Definition lower_ascii (c : ascii) : ascii :=
  let n := nat_of_ascii c in
  if ((65 <=? n) && (n <=? 90))%nat then ascii_of_nat (n + 32) else c.

Fixpoint lower (s : string) : string :=
  match s with
  | EmptyString => EmptyString
  | String c s' => String (lower_ascii c) (lower s')
  end.

(** [items[-1]] *)
Definition index_last {A : Type} (items : list A) : outcome A :=
  match last items with
  | Some x => Ok x
  | None => Raise IndexError
  end.

End Py.

(** [for x in items: acc += body(x)] *)
Fixpoint extend_each {A B : Type} (body : A -> outcome (list B))
    (items : list A) (acc : list B) : outcome (list B) :=
  match items with
  | [] => Ok acc
  | x :: xs => let* more := body x in extend_each body xs (acc ++ more)
  end.

(** ** Parameterized objects and the collaborators of the reporter *)

(** A parameter value, as the pager would show it. *)
Definition pyval : Type := string.

Record PyParameter : Type := mkParameter {
  doc : option string;                  (* [None] when no doc was declared *)
  constant : bool
}.

(** What the reporter reads of a HoloViews object. *)
Record hv_attrs : Type := mkHv {
  group : string;
  label : string;
  deep_indexable : option bool;         (* [_deep_indexable] *)
  has_values : bool                     (* hasattr(obj, 'values') *)
}.

(** A Parameterized class or instance. *)
Record Parameterized : Type := mkParameterized {
  isclass : bool;                       (* isinstance(obj, type) *)
  cls_name : string;                    (* __name__ of the class *)
  params : gmap string PyParameter;       (* obj.params() *)
  param_values : list (string * pyval); (* the values set on an instance *)
  hv : option hv_attrs
}.

(** A plotting class of a backend. *)
Record PlotClass : Type := mkPlotClass {
  plot_parameterized : Parameterized;
  style_opts : list string;
  renderer_backend : string             (* plot_class.renderer.backend *)
}.

(** An entry of the registry: a plotting class, or a PlotSelector that holds
    several of them under [plot_classes]. *)
Inductive registered : Type :=
| Plot (p : PlotClass)
| PlotSelector (plot_classes : list (string * PlotClass)).

(** [store.registry]: backend name, then the type of the object. *)
Definition registry : Type := gmap string (gmap string registered).

(** Calls that reach the parameter pager. *)
Inductive event : Type :=
| PagerGetParamInfo (obj : Parameterized)
| PagerParamDocstrings
| PagerCall (obj : Parameterized).

(** What the reporter uses and does not define: Python's [re] and [repr],
    the pager of param, the base class of every Parameterized, and, from
    other modules of HoloViews, the sanitizers and [traverse]. *)
Class External : Type := {
  (** [re.search(pattern, text, flags)] is not [None]; the flag is
      [re.IGNORECASE] *)
  re_search : bool -> string -> string -> outcome bool;
  (** [re.sub(pattern, repl, text, flags)], [repl] given the matched text *)
  re_sub : bool -> string -> (string -> string) -> string -> outcome string;
  (** [repr] of a string, as [%r] formats it *)
  repr : string -> string;
  pager_info : Type;
  pager_get_param_info : Parameterized -> pager_info;
  pager_param_docstrings : pager_info -> string;
  pager_call : Parameterized -> string;
  (** the [name] parameter every class inherits from [param.Parameterized] *)
  Parameterized_name : PyParameter;
  group_sanitizer : string -> string;
  label_sanitizer : string -> string;
  (** the objects [obj.traverse(fn)] applies [fn] to, in order *)
  traverse : Parameterized -> list Parameterized
}.

(** A call of the reporter: the pager calls it made and its outcome. *)
Definition traced (A : Type) : Type := list event * outcome A.

Definition tret {A : Type} (a : A) : traced A := ([], Ok a).

Definition tlift {A : Type} (m : outcome A) : traced A := ([], m).

Definition tbind {A B : Type} (m : traced A) (k : A -> traced B) : traced B :=
  match m with
  | (log, Ok a) => let (log', r) := k a in (log ++ log', r)
  | (log, Raise e) => (log, Raise e)
  | (log, OutOfFuel) => (log, OutOfFuel)
  end.

Notation "'let!' p ':=' m 'in' k" := (tbind m (fun p => k))
  (at level 10, p pattern, m at level 100, k at level 200).

Section Reporter.

Context {ext : External}.

(** ** ParamFilter *)

(** The predicate built by [regexp_filter(pattern)]. *)
Definition regexp_filter (pattern : string) (name : string) (p : PyParameter)
  : outcome bool :=
  let* name_match := re_search false pattern name in
  if name_match then Ok true
  else
    let* doc_match := (match doc p with
                       | Some d => re_search false pattern d
                       | None => Raise TypeError
                       end) in
    if doc_match then Ok true else Ok false.

(** [{k:v for k,v in items if filter_fn(k,v)}], before it becomes a dict *)
Fixpoint filter_items (filter_fn : string -> PyParameter -> outcome bool)
    (items : list (string * PyParameter)) : outcome (list (string * PyParameter)) :=
  match items with
  | [] => Ok []
  | (k, v) :: rest =>
      let* keep := filter_fn k v in
      let* kept := filter_items filter_fn rest in
      Ok (if keep then (k, v) :: kept else kept)
  end.

(** [type(name, (param.Parameterized,), kept)]: the parameters of the new
    class are the kept ones and the inherited [name]. *)
Definition class_proxy (name : string) (kept : list (string * PyParameter))
  : Parameterized :=
  {| isclass := true;
     cls_name := name;
     params := list_to_map kept ∪ {[ "name" := Parameterized_name ]};
     param_values := [];
     hv := None |}.

Definition ParamFilter (obj : Parameterized)
    (filter_fn : option (string -> PyParameter -> outcome bool))
  : outcome Parameterized :=
  match filter_fn with
  | None => Ok obj
  | Some filter_fn =>
      let name := cls_name obj in
      let* kept := filter_items filter_fn (map_to_list (params obj)) in
      let proxy := class_proxy name kept in
      if isclass obj then Ok proxy
      else
        let instance_params := param_values obj in
        let filtered :=
          List.filter
            (fun '(k, _) =>
               match params proxy !! k with
               | Some p => negb (constant p)
               | None => false
               end)
            instance_params in
        Ok {| isclass := false;
              cls_name := name;
              params := params proxy;
              param_values := filtered;
              hv := None |}
  end.

(** ** InfoPrinter *)

Definition esc : string := String (ascii_of_nat 27) EmptyString.

(** [headings], each split around its [%s] *)
Definition headings : list (string * string) :=
  [(esc +:+ "[1;35m", esc +:+ "[0m"); (esc +:+ "[1;32m", esc +:+ "[0m")].

(** [ansi_escape = re.compile(r'\x1b[^m]*m')] *)
Definition ansi_escape : string := "\x1b[^m]*m".

Definition strip_ansi (s : string) : outcome string :=
  re_sub false ansi_escape (fun _ => "") s.

Definition highlight (pattern : option string) (s : string) : outcome string :=
  match pattern with
  | None => Ok s
  | Some pattern =>
      re_sub true pattern (fun g0 => esc +:+ "[43;1;30m" +:+ g0 +:+ esc +:+ "[0m")
             s
  end.

Definition heading (heading_text : string) (char : option string)
    (level : nat) (ansi : bool) : outcome string :=
  let* heading_color :=
    (if ansi then
       match headings !! level with
       | Some c => Ok c
       | None => Raise IndexError
       end
     else Ok ("", "")) in
  let '(before, after) := heading_color in
  match char with
  | None => Ok (before +:+ heading_text +:+ Py.nl +:+ after)
  | Some char =>
      let heading_ul := Py.repeat_nat char (String.length heading_text) in
      Ok (before +:+ heading_ul +:+ Py.nl +:+ heading_text +:+ Py.nl
                 +:+ heading_ul +:+ after)
  end.

Section ClassAttributes.

(** The class attributes [ppager] ([false]: it is [None]) and [store]. *)
Variable ppager : bool.
Variable store : option registry.

(** [None] is the Python [None] the source returns when nothing is left
    after filtering; the source does not use its [max_col_len] argument. *)
Definition get_parameter_info (obj : Parameterized) (ansi : bool)
    (show_values : bool) (pattern : option string) : traced (option string) :=
  if negb ppager then tret (Some "")
  else
    let report (obj : Parameterized) : traced (option string) :=
      let! param_info :=
        ([PagerGetParamInfo obj], Ok (pager_get_param_info obj)) in
      let! param_list :=
        ([PagerParamDocstrings], Ok (pager_param_docstrings param_info)) in
      if negb show_values then
        let! retval := tlift (if negb ansi then strip_ansi param_list
                              else Ok param_list) in
        let! r := tlift (highlight pattern retval) in
        tret (Some r)
      else
        let! info := ([PagerCall obj], Ok (pager_call obj)) in
        let! info := tlift (if negb ansi then strip_ansi info else Ok info) in
        let! r := tlift (highlight pattern info) in
        tret (Some r) in
    match pattern with
    | Some pat =>
        let! obj := tlift (ParamFilter obj (Some (regexp_filter pat))) in
        if (size (params obj) <=? 1)%nat then tret None
        else report obj
    | None => report obj
    end.

Definition get_target (obj : Parameterized) : outcome (option string * option string) :=
  match hv obj with
  | None => Raise (AttributeError "group")
  | Some h =>
      let objtype := cls_name obj in
      let group := group_sanitizer (group h) in
      let label := if String.eqb (label h) "" then ""
                   else "." +:+ label_sanitizer (label h) in
      let target := objtype +:+ "." +:+ group +:+ label in
      Ok (if has_values h then (None, Some target) else (Some target, None))
  end.

(** [for x in items: acc.append(fn(x))] *)
Fixpoint map_each {A B : Type} (fn : A -> outcome B) (items : list A)
  : outcome (list B) :=
  match items with
  | [] => Ok []
  | x :: xs => let* y := fn x in let* ys := map_each fn xs in Ok (y :: ys)
  end.

(** The summary of a set of targets: nothing, the only one, or all of
    them sorted. *)
Definition summary (singular plural : string) (targets : list string)
  : option string :=
  let target_set := remove_dups targets in
  match target_set with
  | [] => None
  | [t] => Some (singular +:+ t)
  | _ => Some (plural +:+ Py.nl +:+ "   "
                 +:+ Py.join (Py.nl +:+ "   ")
                             (merge_sort String.le target_set))
  end.

Definition target_info (obj : Parameterized) (ansi : bool) : outcome string :=
  if isclass obj then Ok ""
  else
    let* targets := map_each get_target (traverse obj) in
    (* unpacking [zip] of no targets fails *)
    let* _ := (match targets with [] => Raise ValueError | _ :: _ => Ok tt end) in
    let element_info := summary "Element: " "Elements:" (omap fst targets) in
    let container_info :=
      summary "Container: " "Containers:" (omap snd targets) in
    let* heading := heading "Target Specifications" (Some "-") 0 ansi in
    let target_header :=
      Py.nl +:+ "Targets in this object available for customization:"
            +:+ Py.nl in
    let target_info :=
      match element_info, container_info with
      | Some e, Some c => Some (e +:+ Py.nl +:+ Py.nl +:+ c)
      | Some e, None => Some e
      | None, c => c
      end in
    let target_footer :=
      Py.nl +:+ "To see the options info for one of these target specifications,"
      +:+ Py.nl +:+ "which are of the form {type}[.{group}[.{label}]], do holoviews.help({type})." in
    match target_info with
    | Some target_info =>
        Ok (Py.join Py.nl [heading; target_header; target_info; target_footer])
    | None => Raise TypeError
    end.

Definition object_info (obj : Parameterized) (name : string) (ansi : bool)
  : string :=
  let element :=
    negb (match hv obj with
          | Some h => default false (deep_indexable h)
          | None => false
          end) in
  let link :=
    if element
    then "https://ioam.github.io/holoviews/Tutorials/Elements.html#" +:+ name
    else "https://ioam.github.io/holoviews/Tutorials/Containers.html#" +:+ name in
  Py.nl +:+ "Online example: " +:+ link
    +:+ Py.nl +:+ "Help for the data object: holoviews.help(" +:+ name +:+ ")"
    +:+ " or holoviews.help(<" +:+ Py.lower name +:+ "_instance>)".

Definition options_info (plot_class : PlotClass) (ansi : bool)
    (pattern : option string) : traced string :=
  let style_msg :=
    match style_opts plot_class with
    | _ :: _ =>
        let backend_name := renderer_backend plot_class in
        let style_info :=
          Py.nl +:+ "(Consult " +:+ backend_name
                +:+ "'s documentation for more information.)" in
        let style_keywords :=
          Py.tabchar +:+ Py.join ", " (style_opts plot_class) in
        style_keywords +:+ Py.nl +:+ style_info
    | [] => Py.tabchar +:+ "<No style options available>"
    end in
  let! param_info :=
    get_parameter_info (plot_parameterized plot_class) ansi true pattern in
  let! h_style := tlift (heading "Style Options" (Some "-") 0 ansi) in
  let! h_plot := tlift (heading "Plot Options" (Some "-") 0 ansi) in
  let ls := [h_style; ""; style_msg; ""; h_plot; ""] in
  let plot_name := cls_name (plot_parameterized plot_class) in
  let ls :=
    match param_info, pattern with
    | Some param_info, _ =>
        ls ++ ["The plot options are the parameters of the plotting class:"
                 +:+ Py.nl; param_info]
    | None, Some pattern =>
        ls ++ ["No " +:+ repr plot_name
                     +:+ " parameters found matching pattern "
                     +:+ repr pattern +:+ "."]
    | None, None => ls ++ ["No " +:+ repr plot_name +:+ " parameters found."]
    end in
  tret (Py.join Py.nl ls).

(** [cls.store.registry[backend].get(type, None)], then the special case
    that handles PlotSelectors *)
Definition lookup_plot_class (backend : string) (obj : Parameterized)
  : outcome (option PlotClass) :=
  match store with
  | None => Raise (AttributeError "registry")
  | Some reg =>
      match reg !! backend with
      | None => Raise (KeyError backend)
      | Some by_type =>
          match by_type !! cls_name obj with
          | Some (PlotSelector plot_classes) =>
              match plot_classes with
              | (_, p) :: _ => Ok (Some p)
              | [] => Raise IndexError
              end
          | Some (Plot p) => Ok (Some p)
          | None => Ok None
          end
      end
  end.

Definition info (obj : Parameterized) (ansi : bool) (backend : string)
    (visualization : bool) (pattern : option string) : traced string :=
  let isclass := isclass obj in
  let name := cls_name obj in
  let! plot_class := tlift (lookup_plot_class backend obj) in
  if negb visualization
     || match plot_class with None => true | Some _ => false end then
    let report (obj : Parameterized) : traced string :=
      let! info := ([PagerCall obj], Ok (pager_call obj)) in
      let! info := tlift (if negb ansi then strip_ansi info else Ok info) in
      tlift (highlight pattern info) in
    match pattern with
    | Some pat =>
        let! obj := tlift (ParamFilter obj (Some (regexp_filter pat))) in
        if (size (params obj) <=? 1)%nat
        then tret ("No " +:+ repr name
                         +:+ " parameters found matching pattern "
                         +:+ repr pat)
        else report obj
    | None => report obj
    end
  else
    let! heading :=
      tlift (if isclass then Ok name
             else match hv obj with
                  | Some h => Ok (name +:+ ": " +:+ group h +:+ " " +:+ label h)
                  | None => Raise (AttributeError "group")
                  end) in
    let prefix := heading in
    let ls := [prefix; object_info obj name ansi] in
    let! ls := (if negb isclass
                then let! t := tlift (target_info obj ansi) in
                     tret (ls ++ [""; t])
                else tret ls) in
    let! ls := (match plot_class with
                | Some plot_class =>
                    let! o := options_info plot_class ansi pattern in
                    tret (ls ++ [""; o])
                | None => tret ls
                end) in
    tret (Py.join Py.nl ls).

End ClassAttributes.

End Reporter.

(** ** The object graph *)

Record Dimension : Type := mkDimension { name : string }.

(** The attributes the printer probes.  [None] stands for an attribute the
    object does not define. *)
Record attrs : Type := mkAttrs {
  has_children : bool;                  (* hasattr(node, 'children') *)
  has_main : bool;                      (* hasattr(node, 'main') *)
  _deep_indexable : option bool;
  kdims : option (list Dimension);
  vdims : option (list Dimension)
}.

(** A key of [node.data]: a path tuple of an AttrTree, a key tuple of an
    NdMapping. *)
Definition key : Type := list string.

#[warnings="-register-all"]
Inductive node : Type :=
| PyNone
| PyObj (type_name : string) (a : attrs) (data : option (list (key * node))).

(** The four well-formed variants of the data model. *)
Definition GroupNode (tn : string) (children : list (key * node)) : node :=
  PyObj tn (mkAttrs true false (Some true) None None) (Some children).

Definition CompositeNode (tn : string) (kd : list Dimension)
    (components : list (key * node)) : node :=
  PyObj tn (mkAttrs false true (Some true) (Some kd) None) (Some components).

Definition IndexableMapping (tn : string) (kd : list Dimension)
    (entries : list (key * node)) : node :=
  PyObj tn (mkAttrs false false (Some true) (Some kd) None) (Some entries).

Definition LeafElement (tn : string) (kd vd : list Dimension) : node :=
  PyObj tn (mkAttrs false false (Some false) (Some kd) (Some vd)) None.

Definition is_None (n : node) : bool :=
  match n with PyNone => true | PyObj _ _ _ => false end.

Definition hasattr_children (n : node) : bool :=
  match n with PyNone => false | PyObj _ a _ => has_children a end.

Definition hasattr_main (n : node) : bool :=
  match n with PyNone => false | PyObj _ a _ => has_main a end.

(** [getattr(node, '_deep_indexable', default)] *)
Definition getattr_deep_indexable_or (n : node) (default : bool) : bool :=
  match n with
  | PyNone => default
  | PyObj _ a _ => match _deep_indexable a with Some b => b | None => default end
  end.

(** [getattr(node, '_deep_indexable')] *)
Definition getattr_deep_indexable (n : node) : outcome bool :=
  match n with
  | PyNone => Raise (AttributeError "_deep_indexable")
  | PyObj _ a _ =>
      match _deep_indexable a with
      | Some b => Ok b
      | None => Raise (AttributeError "_deep_indexable")
      end
  end.

Definition node_kdims (n : node) : outcome (list Dimension) :=
  match n with
  | PyObj _ (mkAttrs _ _ _ (Some kd) _) _ => Ok kd
  | _ => Raise (AttributeError "kdims")
  end.

Definition node_vdims (n : node) : outcome (list Dimension) :=
  match n with
  | PyObj _ (mkAttrs _ _ _ _ (Some vd)) _ => Ok vd
  | _ => Raise (AttributeError "vdims")
  end.

Definition node_data (n : node) : outcome (list (key * node)) :=
  match n with
  | PyObj _ _ (Some d) => Ok d
  | _ => Raise (AttributeError "data")
  end.

(** Modelled from the spec: [keys] and [get] of a GroupNode live in the tree
    module, which is not part of this file.  A GroupNode "has a mapping from
    dotted string paths to child Nodes (insertion order = declaration
    order)": [keys()] lists the path tuples in order and [get(path)] returns
    the child stored under the dotted path, [None] when there is none. *)
Definition node_keys (n : node) : outcome (list key) :=
  match n with
  | PyObj _ _ (Some d) => Ok (map fst d)
  | _ => Raise (AttributeError "keys")
  end.

Fixpoint get_path (d : list (key * node)) (path : string) : node :=
  match d with
  | [] => PyNone
  | (k, child) :: d' =>
      if String.eqb (Py.join "." k) path then child else get_path d' path
  end.

Definition node_get (n : node) (path : string) : node :=
  match n with
  | PyObj _ _ (Some d) => get_path d path
  | _ => PyNone
  end.

(** ** PrettyPrinter *)

Definition tab : string := "   ".

Definition lines : Type := list (Z * string).

(** [type_formatter.format(type=str(type(node).__name__))] with
    [type_formatter = ':{type}'] *)
Definition component_type (n : node) : string :=
  match n with
  | PyNone => ""
  | PyObj tn _ _ => ":" +:+ tn
  end.

Definition serialize (ls : lines) : string :=
  Py.join Py.nl (map (fun '(level, line) => Py.repeat level tab +:+ line) ls).

Definition shift (ls : lines) (shift : Z) : lines :=
  map (fun '(lvl, line) => (lvl + shift, line)) ls.

Definition padding (items : list string) : outcome nat :=
  if (1 <? length items)%nat then Ok (Py.max_len items)
  else match items with
       | x :: _ => Ok (String.length x)
       | [] => Raise IndexError
       end.

Definition dim_names (ds : list Dimension) : string :=
  Py.join "," (map name ds).

Definition element_info (n : node) (siblings : list node) (level : Z)
    (value_dims : bool) : outcome (Z * lines) :=
  let info := component_type n in
  (* the padded string is computed and dropped: [info.ljust(padding)] *)
  let* _ := (match siblings with
         | [] => Ok info
         | _ :: _ =>
             let* pad := padding (map component_type siblings) in
             Ok (Py.ljust info pad)
         end) in
  let* kd := node_kdims n in
  let info :=
    if (1 <=? length kd)%nat then info +:+ tab +:+ "[" +:+ dim_names kd +:+ "]"
    else info in
  let* info := (if value_dims then
              let* vd := node_vdims n in
              Ok (if (1 <=? length vd)%nat
                  then info +:+ tab +:+ "(" +:+ dim_names vd +:+ ")"
                  else info)
            else Ok info) in
  Ok (level, [(level, info)]).

(** [lines[0] = (fst_lvl, '.' + attrpath.ljust(padding) + ' ' + fst_line)] *)
Definition prefix_first (attrpath : string) (pad : nat) (ls : lines)
  : outcome lines :=
  match ls with
  | (fst_lvl, fst_line) :: rest =>
      Ok ((fst_lvl, "." +:+ Py.ljust attrpath pad +:+ " " +:+ fst_line) :: rest)
  | [] => Raise IndexError
  end.

Fixpoint recurse (fuel : nat) (n : node) (attrpath : option string)
    (attrpaths : list string) (siblings : list node) (level : Z)
    (value_dims : bool) {struct fuel} : outcome lines :=
  match fuel with
  | O => OutOfFuel
  | S fuel =>
      let* (level, ls) := node_info fuel n attrpath attrpaths siblings level
                                 value_dims in
      let* attrpaths := (if hasattr_children n
                     then let* ks := node_keys n in Ok (map (Py.join ".") ks)
                     else Ok []) in
      let siblings := map (node_get n) attrpaths in
      extend_each
        (fun attrpath =>
           recurse fuel (node_get n attrpath) (Some attrpath) attrpaths
                   siblings (level + 1) value_dims)
        attrpaths ls
  end

with node_info (fuel : nat) (n : node) (attrpath : option string)
    (attrpaths : list string) (siblings : list node) (level : Z)
    (value_dims : bool) {struct fuel} : outcome (Z * lines) :=
  match fuel with
  | O => OutOfFuel
  | S fuel =>
      let* (lvl, ls) :=
        (if hasattr_children n then Ok (level, [(level, component_type n)])
         else if hasattr_main n
              then adjointlayout_info fuel n siblings level value_dims
         else if getattr_deep_indexable_or n false
              then ndmapping_info fuel n siblings level value_dims
         else element_info n siblings level value_dims) in
      match attrpath with
      | Some attrpath =>
          let* pad := padding attrpaths in
          let* ls := prefix_first attrpath pad ls in
          Ok (lvl, ls)
      | None => Ok (lvl, ls)
      end
  end

with adjointlayout_info (fuel : nat) (n : node) (siblings : list node)
    (level : Z) (value_dims : bool) {struct fuel} : outcome (Z * lines) :=
  match fuel with
  | O => OutOfFuel
  | S fuel =>
      let first_line := component_type n in
      let ls := [(level, first_line)] in
      let* d := node_data n in
      let* additional_lines :=
        extend_each (fun component => recurse fuel component None [] [] level true)
                    (map snd d) [] in
      Ok (level, ls ++ shift additional_lines 1)
  end

with ndmapping_info (fuel : nat) (n : node) (siblings : list node)
    (level : Z) (value_dims : bool) {struct fuel} : outcome (Z * lines) :=
  match fuel with
  | O => OutOfFuel
  | S fuel =>
      let* kd := node_kdims n in
      let key_dim_info := "[" +:+ dim_names kd +:+ "]" in
      let first_line := component_type n +:+ tab +:+ key_dim_info in
      let ls := [(level, first_line)] in
      let* d := node_data n in
      if (length d =? 0)%nat then Ok (level, ls)
      else
        (* .last has different semantics for GridSpace *)
        let* last := Py.index_last (map snd d) in
        let* (level, additional_lines) :=
          (if hasattr_children last then
             let* al := recurse fuel last None [] [] level true in
             Ok (level, al)
           (* NdOverlays, GridSpace, Ndlayouts *)
           else
             let* deep := (if is_None last then Ok false
                           else getattr_deep_indexable last) in
             if deep then ndmapping_info fuel last [] level value_dims
             else
               let* (_, al) := element_info last siblings level value_dims in
               Ok (level, al)) in
        Ok (level, ls ++ shift additional_lines 1)
  end.

(** The deepest chain of calls [recurse -> node_info -> *_info -> recurse]
    takes three steps per nesting level of the object graph. *)
Fixpoint nesting (n : node) : nat :=
  match n with
  | PyNone => O
  | PyObj _ _ None => 1%nat
  | PyObj _ _ (Some d) => S (list_max (map (fun kv => nesting (snd kv)) d))
  end.

Definition fuel_for (n : node) : nat := (3 * nesting n + 2)%nat.

Definition pprint (n : node) : outcome string :=
  let* ls := recurse (fuel_for n) n None [] [] 0 true in
  Ok (serialize ls).

(** [enough k n]: the fuel that calls on a node of nesting [k] need. *)
Definition enough (k : nat) (n : node) : Prop :=
  (forall f ap aps sibs level vd,
      (3 * k + 2 <= f)%nat -> finished (recurse f n ap aps sibs level vd)) /\
  (forall f ap aps sibs level vd,
      (3 * k + 1 <= f)%nat -> finished (node_info f n ap aps sibs level vd)) /\
  (forall f sibs level vd,
      (3 * k <= f)%nat -> (1 <= f)%nat ->
      finished (adjointlayout_info f n sibs level vd)) /\
  (forall f sibs level vd,
      (3 * k <= f)%nat -> (1 <= f)%nat ->
      finished (ndmapping_info f n sibs level vd)).

(** The dispatch of [node_info], before the path prefix is applied. *)
Definition node_block (fuel : nat) (n : node) (siblings : list node)
    (level : Z) (value_dims : bool) : outcome (Z * lines) :=
  if hasattr_children n then Ok (level, [(level, component_type n)])
  else if hasattr_main n
       then adjointlayout_info fuel n siblings level value_dims
  else if getattr_deep_indexable_or n false
       then ndmapping_info fuel n siblings level value_dims
  else element_info n siblings level value_dims.

(** [block_at level ls]: the first line of [ls] is at [level] and the other
    lines are deeper. *)
Definition block_at (level : Z) (ls : lines) : Prop :=
  exists line rest,
    ls = (level, line) :: rest /\
    Forall (fun l : Z * string => level + 1 <= fst l) rest.

(** ** The wording of the specification *)

(** The line of a leaf as the specification words it: the type tag, the
    bracketed key dimensions when there are some, the parenthesised value
    dimensions when they are requested and there are some. *)
Definition spec_leaf_line (tn : string) (kd vd : list Dimension)
    (value_dims : bool) : string :=
  ((":" +:+ tn)
     +:+ (match kd with
          | [] => ""
          | _ :: _ => tab +:+ "[" +:+ Py.join "," (map name kd) +:+ "]"
          end))
    +:+ (match vd with
         | _ :: _ => if value_dims
                     then tab +:+ "(" +:+ Py.join "," (map name vd) +:+ ")"
                     else ""
         | [] => ""
         end).

(** The header of a mapping as the specification words it. *)
Definition spec_mapping_header (tn : string) (kd : list Dimension) : string :=
  ":" +:+ tn +:+ tab +:+ "[" +:+ Py.join "," (map name kd) +:+ "]".

(** What it takes for the predicate of [regexp_filter] to accept a parameter. *)
Definition found {ext : External} (pattern : string) (name : string)
    (p : PyParameter) : Prop :=
  re_search false pattern name = Ok true \/
  (re_search false pattern name = Ok false /\
   exists d, doc p = Some d /\ re_search false pattern d = Ok true).

(** ** Examples *)

Module Examples.

Definition dim (s : string) : Dimension := mkDimension s.

Definition image : node := LeafElement "Image" [dim "x"; dim "y"] [dim "z"].
Definition curve : node := LeafElement "Curve" [dim "t"] [dim "v"].

Definition layout : node :=
  GroupNode "Layout" [(["Image"; "I"], image); (["Curve"; "II"], curve)].

Definition overlay : node :=
  IndexableMapping "NdOverlay" [dim "c"] [(["1"], curve); (["2"], curve)].

Definition holomap : node :=
  IndexableMapping "HoloMap" [dim "a"; dim "b"] [(["0"; "0"], overlay)].

End Examples.

(** ** A concrete stand-in for the collaborators *)

(** [re] on patterns without metacharacters, where a pattern matches exactly
    where it occurs, and on [ansi_escape]; a pager that lists the parameter
    names; [repr] on strings that need no escaping. *)
Module Literal.

Definition fold_case (ignorecase : bool) (s : string) : string :=
  if ignorecase then Py.lower s else s.

Definition occurs (pattern text : string) : bool :=
  match String.index 0 pattern text with
  | Some _ => true
  | None => false
  end.

Definition search (ignorecase : bool) (pattern text : string) : outcome bool :=
  Ok (occurs (fold_case ignorecase pattern) (fold_case ignorecase text)).

(** Replace the occurrences of [pattern] from left to right. *)
Fixpoint replace (fuel : nat) (ignorecase : bool) (pattern : string)
    (repl : string -> string) (text : string) : string :=
  match fuel with
  | O => text
  | S fuel =>
      let n := String.length pattern in
      if String.prefix (fold_case ignorecase pattern)
                       (fold_case ignorecase text)
      then
        match n, text with
        | O, EmptyString => repl ""
        | O, String c rest =>
            repl "" +:+ String c (replace fuel ignorecase pattern repl rest)
        | _, _ =>
            repl (String.substring 0 n text)
              +:+ replace fuel ignorecase pattern repl
                    (String.substring n (String.length text - n) text)
        end
      else
        match text with
        | EmptyString => EmptyString
        | String c rest => String c (replace fuel ignorecase pattern repl rest)
        end
  end.

(** Drop every escape sequence: ESC, then anything up to the next [m]. *)
Fixpoint strip (pending : option string) (text : string) : string :=
  match text with
  | EmptyString => match pending with Some p => p | None => EmptyString end
  | String c rest =>
      match pending with
      | Some p =>
          if Ascii.eqb c "m" then strip None rest
          else strip (Some (p +:+ String c EmptyString)) rest
      | None =>
          if Ascii.eqb c (ascii_of_nat 27)
          then strip (Some (String c EmptyString)) rest
          else String c (strip None rest)
      end
  end.

Definition sub (ignorecase : bool) (pattern : string)
    (repl : string -> string) (text : string) : outcome string :=
  if String.eqb pattern "\x1b[^m]*m" then Ok (strip None text)
  else Ok (replace (S (String.length text)) ignorecase pattern repl text).

Definition pager (obj : Parameterized) : string :=
  "Parameters of " +:+ cls_name obj +:+ ": "
    +:+ Py.join ", " (map fst (map_to_list (params obj))).

Definition ext : External := {|
  re_search := search;
  re_sub := sub;
  repr := fun s => "'" +:+ s +:+ "'";
  pager_info := Parameterized;
  pager_get_param_info := fun obj => obj;
  pager_param_docstrings := pager;
  pager_call := pager;
  Parameterized_name :=
    mkParameter (Some "String identifier for this object.") true;
  group_sanitizer := fun s => s;
  label_sanitizer := fun s => s;
  traverse := fun obj => [obj]
|}.

(** A class with one parameter of its own. *)
Definition alpha : PyParameter := mkParameter (Some "controls bounds") false.

Definition Demo : Parameterized :=
  {| isclass := true;
     cls_name := "Demo";
     params := {[ "alpha" := alpha;
                  "name" := Parameterized_name (External := ext) ]};
     param_values := [];
     hv := None |}.

(** A store in which no plotting class is registered for [Demo]. *)
Definition store : option registry := Some {[ "matplotlib" := ∅ ]}.

End Literal.

(** * Properties *)

(** ** Examples of printed trees *)

Example pprint_image :
  pprint Examples.image = Ok (":Image" +:+ tab +:+ "[x,y]" +:+ tab +:+ "(z)").
Proof. reflexivity. Qed.

Example pprint_layout :
  pprint Examples.layout =
  Ok (":Layout" +:+ Py.nl +:+
      "   .Image.I  :Image   [x,y]   (z)" +:+ Py.nl +:+
      "   .Curve.II :Curve   [t]   (v)").
Proof. reflexivity. Qed.

Example pprint_holomap :
  pprint Examples.holomap =
  Ok (":HoloMap   [a,b]" +:+ Py.nl +:+
      "   :NdOverlay   [c]" +:+ Py.nl +:+
      "      :Curve   [t]   (v)").
Proof. reflexivity. Qed.

(** ** The outcome monad *)

Lemma below_refl {A : Type} (r : outcome A) : below r r.
Proof. now right. Qed.

Lemma below_finished {A : Type} (r1 r2 : outcome A) :
  below r1 r2 -> finished r1 -> r1 = r2.
Proof. intros [H | H] Hf; [contradiction | exact H]. Qed.

Lemma below_bind {A B : Type} (m1 m2 : outcome A) (k1 k2 : A -> outcome B) :
  below m1 m2 -> (forall a, below (k1 a) (k2 a)) ->
  below (bind m1 k1) (bind m2 k2).
Proof.
  intros [-> | ->] Hk; [now left |].
  destruct m2 as [a | e |]; simpl; [apply Hk | now right | now left].
Qed.

Lemma finished_bind {A B : Type} (m : outcome A) (k : A -> outcome B) :
  finished m -> (forall a, m = Ok a -> finished (k a)) -> finished (bind m k).
Proof.
  destruct m as [a | e |]; simpl; intros Hm Hk;
    [now apply Hk | discriminate | contradiction].
Qed.

Lemma below_extend_each {A B : Type} (body1 body2 : A -> outcome (list B))
    (items : list A) :
  (forall x, below (body1 x) (body2 x)) ->
  forall acc, below (extend_each body1 items acc) (extend_each body2 items acc).
Proof.
  intros Hb. induction items as [| x xs IH]; intros acc; simpl.
  - apply below_refl.
  - apply below_bind; [apply Hb | intros more; apply IH].
Qed.

Lemma finished_extend_each {A B : Type} (body : A -> outcome (list B))
    (items : list A) :
  (forall x, In x items -> finished (body x)) ->
  forall acc, finished (extend_each body items acc).
Proof.
  induction items as [| x xs IH]; intros Hb acc; simpl.
  - discriminate.
  - apply finished_bind; [apply Hb; now left |].
    intros more _. apply IH. intros y Hy. apply Hb. now right.
Qed.

(** The accumulator of the loop is only ever extended. *)
Lemma extend_each_acc {A B : Type} (body : A -> outcome (list B))
    (items : list A) (acc : list B) :
  extend_each body items acc =
  let* more := extend_each body items [] in Ok (acc ++ more).
Proof.
  revert acc. induction items as [| x xs IH]; intros acc; simpl.
  - now rewrite app_nil_r.
  - destruct (body x) as [more | e |]; simpl; [| reflexivity | reflexivity].
    rewrite (IH (acc ++ more)), (IH more).
    destruct (extend_each body xs []) as [rest | e |]; simpl;
      [| reflexivity | reflexivity].
    now rewrite app_assoc.
Qed.

Lemma extend_each_ext {A B : Type} (body1 body2 : A -> outcome (list B))
    (items : list A) (acc : list B) :
  (forall x, In x items -> body1 x = body2 x) ->
  extend_each body1 items acc = extend_each body2 items acc.
Proof.
  revert acc. induction items as [| x xs IH]; intros acc Hb; simpl.
  - reflexivity.
  - rewrite (Hb x) by now left.
    destruct (body2 x); simpl; try reflexivity.
    apply IH. intros y Hy. apply Hb. now right.
Qed.

(** ** Unfolding equations of the printer *)

Lemma recurse_S fuel n attrpath attrpaths siblings level value_dims :
  recurse (S fuel) n attrpath attrpaths siblings level value_dims =
  let* (level, ls) := node_info fuel n attrpath attrpaths siblings level
                                value_dims in
  let* attrpaths := (if hasattr_children n
                     then let* ks := node_keys n in Ok (map (Py.join ".") ks)
                     else Ok []) in
  let siblings := map (node_get n) attrpaths in
  extend_each
    (fun attrpath =>
       recurse fuel (node_get n attrpath) (Some attrpath) attrpaths
               siblings (level + 1) value_dims)
    attrpaths ls.
Proof. reflexivity. Qed.

Lemma node_info_S fuel n attrpath attrpaths siblings level value_dims :
  node_info (S fuel) n attrpath attrpaths siblings level value_dims =
  let* (lvl, ls) :=
    (if hasattr_children n then Ok (level, [(level, component_type n)])
     else if hasattr_main n
          then adjointlayout_info fuel n siblings level value_dims
     else if getattr_deep_indexable_or n false
          then ndmapping_info fuel n siblings level value_dims
     else element_info n siblings level value_dims) in
  match attrpath with
  | Some attrpath =>
      let* pad := padding attrpaths in
      let* ls := prefix_first attrpath pad ls in
      Ok (lvl, ls)
  | None => Ok (lvl, ls)
  end.
Proof. reflexivity. Qed.

Lemma adjointlayout_info_S fuel n siblings level value_dims :
  adjointlayout_info (S fuel) n siblings level value_dims =
  let* d := node_data n in
  let* additional_lines :=
    extend_each (fun component => recurse fuel component None [] [] level true)
                (map snd d) [] in
  Ok (level, [(level, component_type n)] ++ shift additional_lines 1).
Proof. reflexivity. Qed.

Lemma ndmapping_info_S fuel n siblings level value_dims :
  ndmapping_info (S fuel) n siblings level value_dims =
  let* kd := node_kdims n in
  let ls := [(level, component_type n +:+ tab +:+ "[" +:+ dim_names kd +:+ "]")] in
  let* d := node_data n in
  if (length d =? 0)%nat then Ok (level, ls)
  else
    let* last := Py.index_last (map snd d) in
    let* (level, additional_lines) :=
      (if hasattr_children last then
         let* al := recurse fuel last None [] [] level true in
         Ok (level, al)
       else
         let* deep := (if is_None last then Ok false
                       else getattr_deep_indexable last) in
         if deep then ndmapping_info fuel last [] level value_dims
         else
           let* (_, al) := element_info last siblings level value_dims in
           Ok (level, al)) in
    Ok (level, ls ++ shift additional_lines 1).
Proof. reflexivity. Qed.

Global Opaque recurse node_info adjointlayout_info ndmapping_info.

(** ** Fuel: more of it never changes a finished result *)

Ltac below_tac IH :=
  repeat first
    [ apply below_refl
    | apply IH
    | apply below_bind; [| intros ?]
    | apply below_extend_each; intros ?
    | match goal with
      | |- below (if ?c then _ else _) (if ?c then _ else _) => destruct c
      | |- below (match ?x with _ => _ end) (match ?x with _ => _ end) =>
          destruct x
      end ].

Lemma fuel_step (fuel : nat) :
  (forall n ap aps sibs level vd,
      below (recurse fuel n ap aps sibs level vd)
            (recurse (S fuel) n ap aps sibs level vd)) /\
  (forall n ap aps sibs level vd,
      below (node_info fuel n ap aps sibs level vd)
            (node_info (S fuel) n ap aps sibs level vd)) /\
  (forall n sibs level vd,
      below (adjointlayout_info fuel n sibs level vd)
            (adjointlayout_info (S fuel) n sibs level vd)) /\
  (forall n sibs level vd,
      below (ndmapping_info fuel n sibs level vd)
            (ndmapping_info (S fuel) n sibs level vd)).
Proof.
  induction fuel as [| fuel (IHr & IHn & IHa & IHm)].
  - repeat split; intros; now left.
  - repeat split; intros.
    + rewrite !recurse_S. below_tac IHn; below_tac IHr.
    + rewrite !node_info_S. below_tac IHa; below_tac IHm.
    + rewrite !adjointlayout_info_S. below_tac IHr.
    + rewrite !ndmapping_info_S. below_tac IHr; below_tac IHm.
Qed.

Lemma below_trans {A : Type} (r1 r2 r3 : outcome A) :
  below r1 r2 -> below r2 r3 -> below r1 r3.
Proof. intros [-> | ->] H; [now left | exact H]. Qed.

Lemma recurse_fuel_le fuel fuel' n ap aps sibs level vd :
  (fuel <= fuel')%nat ->
  below (recurse fuel n ap aps sibs level vd)
        (recurse fuel' n ap aps sibs level vd).
Proof.
  induction 1 as [| m _ IH]; [apply below_refl |].
  eapply below_trans; [exact IH | apply fuel_step].
Qed.

Lemma ndmapping_info_fuel_le fuel fuel' n sibs level vd :
  (fuel <= fuel')%nat ->
  below (ndmapping_info fuel n sibs level vd)
        (ndmapping_info fuel' n sibs level vd).
Proof.
  induction 1 as [| m _ IH]; [apply below_refl |].
  eapply below_trans; [exact IH | apply fuel_step].
Qed.

(** ** Termination: [fuel_for] is enough *)

Lemma nesting_child tn a d k c :
  In (k, c) d -> (nesting c < nesting (PyObj tn a (Some d)))%nat.
Proof.
  intros Hin. simpl. apply Nat.lt_succ_r.
  assert (H : Forall (fun m => (m <= list_max (map (fun kv => nesting (snd kv)) d))%nat)
                     (map (fun kv => nesting (snd kv)) d))
    by now apply list_max_le.
  rewrite List.Forall_forall in H. apply H.
  apply in_map_iff. now exists (k, c).
Qed.

Lemma get_path_In d path :
  get_path d path = PyNone \/ exists k, In (k, get_path d path) d.
Proof.
  induction d as [| [k c] d IH]; simpl; [now left |].
  destruct (String.eqb (Py.join "." k) path).
  - right. exists k. now left.
  - destruct IH as [-> | [k' Hk']]; [now left | right].
    exists k'. now right.
Qed.

Lemma nesting_node_get tn a d path :
  (nesting (node_get (PyObj tn a (Some d)) path)
   < nesting (PyObj tn a (Some d)))%nat.
Proof.
  simpl node_get. destruct (get_path_In d path) as [-> | [k Hk]].
  - simpl. lia.
  - eapply nesting_child; eassumption.
Qed.

Lemma index_last_In {A : Type} (items : list A) (x : A) :
  Py.index_last items = Ok x -> In x items.
Proof.
  unfold Py.index_last. destruct (last items) as [y |] eqn:E; [| discriminate].
  intros [= <-]. apply list_elem_of_In. eapply last_Some_elem_of; eassumption.
Qed.

Lemma In_map_snd {A B : Type} (d : list (A * B)) (c : B) :
  In c (map snd d) -> exists k, In (k, c) d.
Proof.
  intros H. apply in_map_iff in H as ([k c'] & <- & Hin). now exists k.
Qed.

Lemma finished_element_info n sibs level vd :
  finished (element_info n sibs level vd).
Proof.
  unfold element_info.
  repeat (apply finished_bind; [| intros ? _]);
    repeat match goal with
           | |- finished (match ?x with _ => _ end) => destruct x
           | |- finished (bind _ _) => apply finished_bind; [| intros ? _]
           | |- finished (Ok _) => discriminate
           | |- finished (Raise _) => discriminate
           | |- finished (padding _) => unfold padding
           | |- finished (node_kdims ?n) => unfold node_kdims
           | |- finished (node_vdims ?n) => unfold node_vdims
           end.
Qed.

Ltac finish_tac :=
  repeat match goal with
         | |- finished (bind _ _) => apply finished_bind; [| intros ? ?]
         | |- finished (Ok _) => discriminate
         | |- finished (Raise _) => discriminate
         | |- finished (element_info _ _ _ _) => apply finished_element_info
         | |- finished (padding _) => unfold padding
         | |- finished (prefix_first _ _ _) => unfold prefix_first
         | |- finished (let (_, _) := ?x in _) => destruct x
         | |- finished (if ?c then _ else _) => destruct c eqn:?
         | |- finished (match ?x with _ => _ end) => destruct x eqn:?
         end.

Lemma enough_None k : enough k PyNone.
Proof.
  assert (Hm : forall f sibs level vd,
             (1 <= f)%nat -> finished (ndmapping_info f PyNone sibs level vd)).
  { intros [| f] **; [lia |]. rewrite ndmapping_info_S. simpl. discriminate. }
  assert (Ha : forall f sibs level vd,
             (1 <= f)%nat -> finished (adjointlayout_info f PyNone sibs level vd)).
  { intros [| f] **; [lia |]. rewrite adjointlayout_info_S. simpl. discriminate. }
  assert (Hn : forall f ap aps sibs level vd,
             (1 <= f)%nat -> finished (node_info f PyNone ap aps sibs level vd)).
  { intros [| f] **; [lia |]. rewrite node_info_S. simpl. finish_tac. }
  repeat split; intros; try (apply Hm || apply Ha || apply Hn); try lia.
  destruct f as [| f]; [lia |]. rewrite recurse_S.
  apply finished_bind; [apply Hn; lia |]. intros [lvl ls] _. simpl. discriminate.
Qed.

Lemma enough_nesting k : forall n, (nesting n <= k)%nat -> enough k n.
Proof.
  induction k as [| k IH]; intros n Hn.
  - destruct n as [| tn a [d |]]; simpl in Hn; try lia. apply enough_None.
  - destruct n as [| tn a d]; [apply enough_None |].
    assert (Hchild : forall c key d', d = Some d' -> In (key, c) d' -> enough k c).
    { intros c key d' -> Hin. apply IH.
      pose proof (nesting_child tn a d' key c Hin). lia. }
    assert (Hget : forall path, enough k (node_get (PyObj tn a d) path)).
    { intros path. destruct d as [d |]; [| apply enough_None].
      apply IH. pose proof (nesting_node_get tn a d path). lia. }
    assert (Hm : forall f sibs level vd,
               (3 * S k <= f)%nat ->
               finished (ndmapping_info f (PyObj tn a d) sibs level vd)).
    { intros [| f] sibs level vd Hf; [lia |]. rewrite ndmapping_info_S.
      apply finished_bind; [unfold node_kdims; finish_tac |]. intros kd _.
      cbv zeta. apply finished_bind; [unfold node_data; finish_tac |].
      intros d' Hd'. destruct (length d' =? 0)%nat; [discriminate |].
      apply finished_bind; [unfold Py.index_last; finish_tac |].
      intros lst Hlst. apply index_last_In, In_map_snd in Hlst as [key Hin].
      destruct d as [d |]; [| discriminate]. injection Hd' as ->.
      destruct (Hchild lst key d' eq_refl Hin) as (Hr & _ & _ & Hm').
      apply finished_bind; [| intros [? ?] _; discriminate].
      destruct (hasattr_children lst).
      - apply finished_bind; [apply Hr; lia | intros; discriminate].
      - apply finished_bind;
          [destruct (is_None lst); [discriminate |];
           unfold getattr_deep_indexable; finish_tac |].
        intros [|] _; [apply Hm'; lia | finish_tac]. }
    assert (Ha : forall f sibs level vd,
               (3 * S k <= f)%nat ->
               finished (adjointlayout_info f (PyObj tn a d) sibs level vd)).
    { intros [| f] sibs level vd Hf; [lia |]. rewrite adjointlayout_info_S.
      apply finished_bind; [unfold node_data; finish_tac |]. intros d' Hd'.
      apply finished_bind; [| intros; discriminate].
      apply finished_extend_each. intros c Hc.
      apply In_map_snd in Hc as [key Hin].
      destruct d as [d |]; [| discriminate]. injection Hd' as ->.
      destruct (Hchild c key d' eq_refl Hin) as (Hr & _). apply Hr. lia. }
    assert (Hi : forall f ap aps sibs level vd,
               (3 * S k + 1 <= f)%nat ->
               finished (node_info f (PyObj tn a d) ap aps sibs level vd)).
    { intros [| f] ap aps sibs level vd Hf; [lia |]. rewrite node_info_S.
      apply finished_bind.
      - destruct (hasattr_children _); [discriminate |].
        destruct (hasattr_main _); [apply Ha; lia |].
        destruct (getattr_deep_indexable_or _ _); [apply Hm; lia |].
        apply finished_element_info.
      - intros [lvl ls] _. destruct ap; [| discriminate].
        unfold padding, prefix_first. finish_tac. }
    repeat split; intros; try (apply Hm || apply Ha || apply Hi); try lia.
    destruct f as [| f]; [lia |]. rewrite recurse_S.
    apply finished_bind; [apply Hi; lia |]. intros [lvl ls] _.
    apply finished_bind; [unfold node_keys; finish_tac |]. intros paths _.
    cbv zeta. apply finished_extend_each. intros path _.
    destruct (Hget path) as (Hr & _). apply Hr. lia.
Qed.

Lemma recurse_finished n fuel ap aps sibs level vd :
  (fuel_for n <= fuel)%nat -> finished (recurse fuel n ap aps sibs level vd).
Proof.
  intros Hf. destruct (enough_nesting (nesting n) n (le_n _)) as (Hr & _).
  apply Hr. exact Hf.
Qed.

(** With at least [fuel_for n] fuel the result no longer depends on it. *)
Lemma recurse_fuel_for n fuel ap aps sibs level vd :
  (fuel_for n <= fuel)%nat ->
  recurse fuel n ap aps sibs level vd =
  recurse (fuel_for n) n ap aps sibs level vd.
Proof.
  intros Hf. symmetry. apply below_finished.
  - now apply recurse_fuel_le.
  - now apply recurse_finished.
Qed.

Lemma recurse_enough_fuel n small fuel ap aps sibs level vd r :
  recurse small n ap aps sibs level vd = r -> finished r ->
  (small <= fuel)%nat -> recurse fuel n ap aps sibs level vd = r.
Proof.
  intros <- Hr Hle. symmetry. apply below_finished; [| exact Hr].
  now apply recurse_fuel_le.
Qed.

(** [pprint] always returns or raises. *)
Lemma pprint_finished n : finished (pprint n).
Proof.
  unfold pprint. apply finished_bind; [| intros; discriminate].
  apply recurse_finished. lia.
Qed.

(** ** Properties of the pretty-printer *)

Lemma append_nil_r (s : string) : s +:+ "" = s.
Proof.
  induction s as [| c s IH]; [reflexivity |].
  change (String c (s +:+ "") = String c s). now rewrite IH.
Qed.

Lemma append_assoc (s1 s2 s3 : string) :
  (s1 +:+ s2) +:+ s3 = s1 +:+ s2 +:+ s3.
Proof.
  induction s1 as [| c s1 IH]; [reflexivity |].
  change (String c ((s1 +:+ s2) +:+ s3) = String c (s1 +:+ s2 +:+ s3)).
  now rewrite IH.
Qed.

Lemma padding_nonempty (x : string) (items : list string) :
  padding (x :: items) = Ok (Py.max_len (x :: items)).
Proof.
  unfold padding. destruct items as [| y items]; simpl.
  - unfold Py.max_len. simpl. now rewrite Nat.max_0_r.
  - reflexivity.
Qed.

Lemma padding_In (p : string) (items : list string) :
  In p items -> padding items = Ok (Py.max_len items).
Proof. destruct items; [intros [] | intros _; apply padding_nonempty]. Qed.

Lemma element_info_no_siblings n siblings level value_dims :
  element_info n siblings level value_dims = element_info n [] level value_dims.
Proof.
  unfold element_info. destruct siblings as [| s siblings]; [reflexivity |].
  cbn [map]. now rewrite padding_nonempty.
Qed.

Lemma element_info_leaf tn kd vd siblings level value_dims :
  element_info (LeafElement tn kd vd) siblings level value_dims =
  Ok (level, [(level, spec_leaf_line tn kd vd value_dims)]).
Proof.
  rewrite element_info_no_siblings. unfold element_info, spec_leaf_line.
  cbn [LeafElement node_kdims node_vdims component_type bind].
  destruct kd as [| k kd], vd as [| v vd], value_dims; cbn [length Nat.leb bind];
    rewrite ?append_nil_r; reflexivity.
Qed.

Lemma fuel_for_obj tn a d : (5 <= fuel_for (PyObj tn a d))%nat.
Proof. unfold fuel_for. destruct d; simpl; lia. Qed.

Lemma serialize_one (line : string) : serialize [(0, line)] = line.
Proof. reflexivity. Qed.

Lemma pprint_from_recurse n small ls :
  recurse small n None [] [] 0 true = Ok ls ->
  (small <= fuel_for n)%nat -> pprint n = Ok (serialize ls).
Proof.
  intros Hr Hle. unfold pprint.
  rewrite (recurse_enough_fuel n small (fuel_for n) _ _ _ _ _ _ Hr);
    [reflexivity | discriminate | exact Hle].
Qed.

Lemma pprint_raise_from_recurse n small e :
  recurse small n None [] [] 0 true = Raise e ->
  (small <= fuel_for n)%nat -> pprint n = Raise e.
Proof.
  intros Hr Hle. unfold pprint.
  rewrite (recurse_enough_fuel n small (fuel_for n) _ _ _ _ _ _ Hr);
    [reflexivity | discriminate | exact Hle].
Qed.

(** A node without [children] has nothing below its own block. *)
Lemma recurse_no_children fuel n ap aps sibs level vd :
  hasattr_children n = false ->
  recurse (S fuel) n ap aps sibs level vd =
  let* (_, ls) := node_info fuel n ap aps sibs level vd in Ok ls.
Proof.
  intros Hc. rewrite recurse_S, Hc.
  destruct (node_info fuel n ap aps sibs level vd) as [[lvl ls] | e |];
    reflexivity.
Qed.

Lemma recurse_leaf fuel tn kd vd siblings level value_dims :
  recurse (S (S fuel)) (LeafElement tn kd vd) None [] siblings level value_dims
  = Ok [(level, spec_leaf_line tn kd vd value_dims)].
Proof.
  rewrite recurse_no_children by reflexivity.
  rewrite node_info_S. cbn [LeafElement hasattr_children hasattr_main
    getattr_deep_indexable_or has_children has_main _deep_indexable].
  now rewrite element_info_leaf.
Qed.

(** C5: a LeafElement is printed as exactly one line: its type tag, then, only
    when it has a key dimension, the tab and the bracketed comma-joined key
    dimension names, then, only when value dimensions are requested and it has
    one, the tab and the parenthesised comma-joined value dimension names.
    Without the request the parenthesised part is absent. *)
Theorem leaf_line_shape tn kd vd :
  (forall siblings level value_dims,
      element_info (LeafElement tn kd vd) siblings level value_dims =
      Ok (level, [(level, spec_leaf_line tn kd vd value_dims)])) /\
  (forall fuel siblings level value_dims,
      recurse (S (S fuel)) (LeafElement tn kd vd) None [] siblings level
              value_dims
      = Ok [(level, spec_leaf_line tn kd vd value_dims)]) /\
  pprint (LeafElement tn kd vd) = Ok (spec_leaf_line tn kd vd true) /\
  spec_leaf_line tn kd vd false =
  spec_leaf_line tn kd [] true.
Proof.
  split; [| split; [| split]].
  - intros. apply element_info_leaf.
  - intros. apply recurse_leaf.
  - rewrite (pprint_from_recurse _ 2%nat _ (recurse_leaf 0 tn kd vd [] 0 true)).
    + reflexivity.
    + pose proof (fuel_for_obj tn (mkAttrs false false (Some false) (Some kd) (Some vd)) None).
      unfold LeafElement. lia.
  - unfold spec_leaf_line. now destruct vd.
Qed.

Lemma ndmapping_info_empty fuel tn kd siblings level value_dims :
  ndmapping_info (S fuel) (IndexableMapping tn kd []) siblings level value_dims
  = Ok (level, [(level, spec_mapping_header tn kd)]).
Proof. rewrite ndmapping_info_S. reflexivity. Qed.

Lemma node_info_mapping fuel tn kd d siblings level value_dims :
  node_info (S fuel) (IndexableMapping tn kd d) None [] siblings level
            value_dims =
  ndmapping_info fuel (IndexableMapping tn kd d) siblings level value_dims.
Proof.
  rewrite node_info_S. cbn [IndexableMapping hasattr_children hasattr_main
    getattr_deep_indexable_or has_children has_main _deep_indexable].
  destruct (ndmapping_info fuel _ siblings level value_dims) as [[lvl ls] | |];
    reflexivity.
Qed.

(** C6: a mapping without entries is printed as its header alone, whatever its
    key dimensions are, and printing it does not fail. *)
Theorem empty_mapping_header_only tn kd :
  (forall fuel siblings level value_dims,
      ndmapping_info (S fuel) (IndexableMapping tn kd []) siblings level
                     value_dims
      = Ok (level, [(level, spec_mapping_header tn kd)])) /\
  (forall fuel siblings level value_dims,
      recurse (S (S (S fuel))) (IndexableMapping tn kd []) None [] siblings
              level value_dims
      = Ok [(level, spec_mapping_header tn kd)]) /\
  pprint (IndexableMapping tn kd []) = Ok (spec_mapping_header tn kd).
Proof.
  assert (Hr : forall fuel siblings level value_dims,
      recurse (S (S (S fuel))) (IndexableMapping tn kd []) None [] siblings
              level value_dims
      = Ok [(level, spec_mapping_header tn kd)]).
  { intros. rewrite recurse_no_children by reflexivity.
    now rewrite node_info_mapping, ndmapping_info_empty. }
  split; [| split].
  - intros. apply ndmapping_info_empty.
  - exact Hr.
  - rewrite (pprint_from_recurse _ 3%nat _ (Hr 0%nat [] 0 true)); [reflexivity |].
    pose proof (fuel_for_obj tn (mkAttrs false false (Some true) (Some kd) None)
                             (Some [])).
    unfold IndexableMapping. lia.
Qed.

Lemma bind_Ok_inv {A B : Type} (m : outcome A) (k : A -> outcome B) (b : B) :
  bind m k = Ok b -> exists a, m = Ok a /\ k a = Ok b.
Proof. destruct m as [a | e |]; simpl; [eauto | discriminate | discriminate]. Qed.

Lemma mapping_last_entry (init : list (key * node)) (k : key) (c : node) :
  (length (init ++ [(k, c)]) =? 0)%nat = false /\
  Py.index_last (map snd (init ++ [(k, c)])) = Ok c.
Proof.
  split.
  - apply Nat.eqb_neq. rewrite length_app. simpl. lia.
  - unfold Py.index_last. rewrite map_app. simpl. now rewrite last_snoc.
Qed.

Lemma ndmapping_info_last fuel tn kd init k c siblings level value_dims :
  ndmapping_info (S fuel) (IndexableMapping tn kd (init ++ [(k, c)])) siblings
                 level value_dims =
  let* (level', additional_lines) :=
    (if hasattr_children c then
       let* al := recurse fuel c None [] [] level true in
       Ok (level, al)
     else
       let* deep := (if is_None c then Ok false
                     else getattr_deep_indexable c) in
       if deep then ndmapping_info fuel c [] level value_dims
       else
         let* (_, al) := element_info c siblings level value_dims in
         Ok (level, al)) in
  Ok (level', (level, spec_mapping_header tn kd) :: shift additional_lines 1).
Proof.
  rewrite ndmapping_info_S.
  destruct (mapping_last_entry init k c) as [Hlen Hlast].
  cbn [IndexableMapping node_kdims node_data bind]. cbv zeta.
  rewrite Hlen, Hlast. cbn [bind]. reflexivity.
Qed.

Lemma fuel_for_mapping tn kd d m :
  (m <= 5)%nat -> (m <= fuel_for (IndexableMapping tn kd d))%nat.
Proof.
  intros Hm. unfold IndexableMapping.
  pose proof (fuel_for_obj tn (mkAttrs false false (Some true) (Some kd) None)
                           (Some d)).
  lia.
Qed.

(** C1, as amended: in a chain outer mapping -> middle mapping -> leaf the
    recursion into a nested mapping shifts its lines like any other branch,
    so the middle header sits one level below the outer header and the leaf
    line two levels below it. *)
Theorem nested_mapping_chain_levels tn1 kd1 init1 k1 tn2 kd2 init2 k2 tn3 kd3 vd3 :
  let leaf := LeafElement tn3 kd3 vd3 in
  let middle := IndexableMapping tn2 kd2 (init2 ++ [(k2, leaf)]) in
  let outer := IndexableMapping tn1 kd1 (init1 ++ [(k1, middle)]) in
  (forall fuel siblings level value_dims,
      recurse (4 + fuel) outer None [] siblings level value_dims =
      Ok [(level, spec_mapping_header tn1 kd1);
          (level + 1, spec_mapping_header tn2 kd2);
          (level + 1 + 1, spec_leaf_line tn3 kd3 vd3 value_dims)]) /\
  pprint outer =
  Ok (spec_mapping_header tn1 kd1 +:+ Py.nl +:+
      (tab +:+ spec_mapping_header tn2 kd2) +:+ Py.nl +:+
      ((tab +:+ tab) +:+ spec_leaf_line tn3 kd3 vd3 true)).
Proof.
  intros leaf middle outer.
  assert (Hr : forall fuel siblings level value_dims,
      recurse (4 + fuel) outer None [] siblings level value_dims =
      Ok [(level, spec_mapping_header tn1 kd1);
          (level + 1, spec_mapping_header tn2 kd2);
          (level + 1 + 1, spec_leaf_line tn3 kd3 vd3 value_dims)]).
  { intros. change (4 + fuel)%nat with (S (S (S (S fuel)))).
    rewrite recurse_no_children by reflexivity. subst outer.
    rewrite node_info_mapping, ndmapping_info_last.
    subst middle. cbn [IndexableMapping hasattr_children has_children is_None
      getattr_deep_indexable _deep_indexable bind].
    fold (IndexableMapping tn2 kd2 (init2 ++ [(k2, leaf)])).
    rewrite ndmapping_info_last. subst leaf.
    cbn [LeafElement hasattr_children has_children is_None
      getattr_deep_indexable _deep_indexable bind].
    fold (LeafElement tn3 kd3 vd3). rewrite element_info_leaf. reflexivity. }
  split; [exact Hr |].
  rewrite (pprint_from_recurse _ 4%nat _ (Hr 0%nat [] 0 true)).
  - reflexivity.
  - apply fuel_for_mapping. lia.
Qed.

(** C1, as stated, fails on a HoloMap of NdOverlays of Curves: the three lines
    are at levels 0, 1 and 2, not 0, 0 and 1. *)
Lemma flattened_chain_fails :
  recurse (fuel_for Examples.holomap) Examples.holomap None [] [] 0 true =
  Ok [(0, ":HoloMap   [a,b]"); (1, ":NdOverlay   [c]");
      (2, ":Curve   [t]   (v)")] /\
  ~ (exists header middle_header leaf_line,
        recurse (fuel_for Examples.holomap) Examples.holomap None [] [] 0 true =
        Ok [(0, header); (0, middle_header); (1, leaf_line)]).
Proof.
  assert (H : recurse (fuel_for Examples.holomap) Examples.holomap None [] [] 0
                      true =
              Ok [(0, ":HoloMap   [a,b]"); (1, ":NdOverlay   [c]");
                  (2, ":Curve   [t]   (v)")]) by (vm_compute; reflexivity).
  split; [exact H |].
  intros (h & m & l & H'). rewrite H in H'. discriminate.
Qed.

(** C3: a mapping whose last entry is [None] is not printed: the entry is sent
    to [element_info], which reads [kdims] of [None]. *)
Theorem mapping_with_None_last_raises tn kd init k :
  (forall fuel siblings level value_dims,
      ndmapping_info (S fuel) (IndexableMapping tn kd (init ++ [(k, PyNone)]))
                     siblings level value_dims
      = Raise (AttributeError "kdims")) /\
  pprint (IndexableMapping tn kd (init ++ [(k, PyNone)])) =
  Raise (AttributeError "kdims").
Proof.
  assert (Hm : forall fuel siblings level value_dims,
      ndmapping_info (S fuel) (IndexableMapping tn kd (init ++ [(k, PyNone)]))
                     siblings level value_dims
      = Raise (AttributeError "kdims")).
  { intros. rewrite ndmapping_info_last.
    cbn [hasattr_children is_None bind].
    rewrite element_info_no_siblings. reflexivity. }
  split; [exact Hm |].
  apply (pprint_raise_from_recurse _ 3%nat); [| apply fuel_for_mapping; lia].
  rewrite recurse_no_children by reflexivity.
  now rewrite node_info_mapping, Hm.
Qed.

(** C10: when the last entry of a mapping is an object without [children]
    that does not define [_deep_indexable], [ndmapping_info], and with it
    [pprint], raises AttributeError at the lookup; [node_info] on the same
    object takes the attribute to be false and goes on to the composite or
    the element branch. *)
Theorem missing_deep_indexable_raises tn kd init k tn' kd' vd' d' :
  (forall main,
      let entry := PyObj tn' (mkAttrs false main None kd' vd') d' in
      (forall fuel siblings level value_dims,
          ndmapping_info (S fuel) (IndexableMapping tn kd (init ++ [(k, entry)]))
                         siblings level value_dims
          = Raise (AttributeError "_deep_indexable")) /\
      pprint (IndexableMapping tn kd (init ++ [(k, entry)])) =
      Raise (AttributeError "_deep_indexable")) /\
  (forall fuel siblings level value_dims,
      let entry := PyObj tn' (mkAttrs false false None kd' vd') d' in
      node_info (S fuel) entry None [] siblings level value_dims =
      element_info entry siblings level value_dims) /\
  (forall fuel siblings level value_dims,
      let entry := PyObj tn' (mkAttrs false true None kd' vd') d' in
      node_info (S fuel) entry None [] siblings level value_dims =
      adjointlayout_info fuel entry siblings level value_dims).
Proof.
  split; [| split].
  - intros main entry.
    assert (Hm : forall fuel siblings level value_dims,
      ndmapping_info (S fuel) (IndexableMapping tn kd (init ++ [(k, entry)]))
                     siblings level value_dims
      = Raise (AttributeError "_deep_indexable")).
    { intros. rewrite ndmapping_info_last. reflexivity. }
    split; [exact Hm |].
    apply (pprint_raise_from_recurse _ 3%nat); [| apply fuel_for_mapping; lia].
    rewrite recurse_no_children by reflexivity.
    now rewrite node_info_mapping, Hm.
  - intros. rewrite node_info_S. subst entry.
    cbn [hasattr_children hasattr_main getattr_deep_indexable_or has_children
         has_main _deep_indexable].
    destruct (element_info _ siblings level value_dims) as [[lvl ls] | |];
      reflexivity.
  - intros. rewrite node_info_S. subst entry.
    cbn [hasattr_children hasattr_main getattr_deep_indexable_or has_children
         has_main _deep_indexable].
    destruct (adjointlayout_info fuel _ siblings level value_dims)
      as [[lvl ls] | |]; reflexivity.
Qed.

Lemma adjointlayout_info_no_siblings fuel n siblings level value_dims :
  adjointlayout_info fuel n siblings level value_dims =
  adjointlayout_info fuel n [] level value_dims.
Proof. destruct fuel; [reflexivity |]. now rewrite !adjointlayout_info_S. Qed.

Lemma ndmapping_info_no_siblings fuel n siblings level value_dims :
  ndmapping_info fuel n siblings level value_dims =
  ndmapping_info fuel n [] level value_dims.
Proof.
  destruct fuel; [reflexivity |]. rewrite !ndmapping_info_S.
  destruct (node_kdims n) as [kd | |]; cbn [bind]; try reflexivity. cbv zeta.
  destruct (node_data n) as [d | |]; cbn [bind]; try reflexivity.
  destruct (length d =? 0)%nat; try reflexivity.
  destruct (Py.index_last (map snd d)) as [c | |]; cbn [bind]; try reflexivity.
  destruct (hasattr_children c); try reflexivity.
  destruct (if is_None c then _ else _) as [[|] | |]; cbn [bind];
    try reflexivity.
  now rewrite (element_info_no_siblings c siblings).
Qed.

Lemma node_block_no_siblings fuel n siblings level value_dims :
  node_block fuel n siblings level value_dims =
  node_block fuel n [] level value_dims.
Proof.
  unfold node_block.
  now rewrite adjointlayout_info_no_siblings, ndmapping_info_no_siblings,
              element_info_no_siblings.
Qed.

Lemma node_block_head fuel n siblings level value_dims lvl ls :
  node_block fuel n siblings level value_dims = Ok (lvl, ls) ->
  exists first rest, ls = first :: rest.
Proof.
  unfold node_block.
  destruct (hasattr_children n); [intros [= <- <-]; eauto |].
  destruct (hasattr_main n).
  { destruct fuel; [discriminate |]. rewrite adjointlayout_info_S.
    intros H. apply bind_Ok_inv in H as (d & _ & H).
    apply bind_Ok_inv in H as (al & _ & [= <- <-]). simpl. eauto. }
  destruct (getattr_deep_indexable_or n false).
  { destruct fuel; [discriminate |]. rewrite ndmapping_info_S.
    intros H. apply bind_Ok_inv in H as (kd & _ & H). cbv zeta in H.
    apply bind_Ok_inv in H as (d & _ & H).
    destruct (length d =? 0)%nat; [injection H as <- <-; eauto |].
    apply bind_Ok_inv in H as (c & _ & H).
    apply bind_Ok_inv in H as ([lvl' al] & _ & [= <- <-]). simpl. eauto. }
  unfold element_info. intros H.
  apply bind_Ok_inv in H as (? & _ & H).
  apply bind_Ok_inv in H as (kd & _ & H).
  apply bind_Ok_inv in H as (info & _ & [= <- <-]). eauto.
Qed.

Lemma node_info_block fuel n attrpath attrpaths siblings level value_dims :
  node_info (S fuel) n attrpath attrpaths siblings level value_dims =
  let* (lvl, ls) := node_block fuel n [] level value_dims in
  match attrpath with
  | Some attrpath =>
      let* pad := padding attrpaths in
      let* ls := prefix_first attrpath pad ls in
      Ok (lvl, ls)
  | None => Ok (lvl, ls)
  end.
Proof.
  rewrite node_info_S, <- (node_block_no_siblings fuel n siblings).
  reflexivity.
Qed.

(** What a path prefix does to the block of a node. *)
Lemma recurse_attrpath fuel n attrpath attrpaths siblings level value_dims :
  In attrpath attrpaths ->
  recurse fuel n (Some attrpath) attrpaths siblings level value_dims =
  let* ls := recurse fuel n None [] [] level value_dims in
  prefix_first attrpath (Py.max_len attrpaths) ls.
Proof.
  intros Hin. destruct fuel as [| fuel]; [reflexivity |].
  rewrite !recurse_S. destruct fuel as [| fuel]; [reflexivity |].
  rewrite !node_info_block.
  destruct (node_block fuel n [] level value_dims) as [[lvl ls] | |] eqn:E;
    cbn [bind]; try reflexivity.
  rewrite (padding_In _ _ Hin). cbn [bind].
  destruct (node_block_head _ _ _ _ _ _ _ E) as ([l0 s0] & rest & ->).
  cbn [prefix_first bind].
  destruct (if hasattr_children n then _ else _) as [paths | |]; cbn [bind];
    try reflexivity.
  cbv zeta.
  rewrite (extend_each_acc _ paths ((l0, s0) :: rest)).
  rewrite (extend_each_acc _ paths ((l0, _) :: rest)).
  destruct (extend_each _ paths []) as [more | |]; reflexivity.
Qed.

(** Nothing [recurse] returns depends on the siblings it is given. *)
Lemma recurse_no_siblings fuel n attrpath attrpaths siblings level value_dims :
  recurse fuel n attrpath attrpaths siblings level value_dims =
  recurse fuel n attrpath attrpaths [] level value_dims.
Proof.
  destruct fuel as [| fuel]; [reflexivity |]. rewrite !recurse_S.
  destruct fuel as [| fuel]; [reflexivity |]. now rewrite !node_info_block.
Qed.

(** C9: the line [element_info] produces does not depend on the siblings it is
    given: their padding is computed and dropped.  This holds for every node;
    for a LeafElement the line is [spec_leaf_line] whatever the siblings are,
    and the block [recurse] prints for it is the same with any siblings. *)
Theorem element_info_ignores_siblings :
  (forall (n : node) (siblings siblings' : list node) (level : Z)
          (value_dims : bool),
      element_info n siblings level value_dims =
      element_info n siblings' level value_dims) /\
  (forall tn kd vd (siblings : list node) (level : Z) (value_dims : bool),
      element_info (LeafElement tn kd vd) siblings level value_dims =
      Ok (level, [(level, spec_leaf_line tn kd vd value_dims)])) /\
  (forall fuel (n : node) attrpath attrpaths (siblings siblings' : list node)
          (level : Z) (value_dims : bool),
      recurse fuel n attrpath attrpaths siblings level value_dims =
      recurse fuel n attrpath attrpaths siblings' level value_dims).
Proof.
  split; [| split].
  - intros n siblings siblings' level value_dims.
    now rewrite (element_info_no_siblings n siblings),
                (element_info_no_siblings n siblings').
  - intros. apply element_info_leaf.
  - intros. now rewrite (recurse_no_siblings fuel n attrpath attrpaths siblings),
                        (recurse_no_siblings fuel n attrpath attrpaths siblings').
Qed.

(** C2: a node reached through an attribute path of a GroupNode has the first
    line of its block, and only that line, rewritten: a dot, the path
    left-justified to the longest sibling path (to its own length when it is
    the only one), a space, then the original line.  With the paths "a" and
    "bb" the first lines of the two children start with ".a  " and ".bb ". *)
Theorem path_prefix_decoration :
  (forall fuel n attrpath attrpaths siblings level value_dims lvl line rest,
      In attrpath attrpaths ->
      recurse fuel n None [] [] level value_dims = Ok ((lvl, line) :: rest) ->
      recurse fuel n (Some attrpath) attrpaths siblings level value_dims =
      Ok ((lvl, "." +:+ Py.ljust attrpath (Py.max_len attrpaths) +:+ " " +:+ line)
            :: rest)) /\
  (forall attrpath, Py.max_len [attrpath] = String.length attrpath) /\
  (forall fuel tn children level value_dims,
      let parent := GroupNode tn children in
      let attrpaths := map (Py.join ".") (map fst children) in
      recurse (S (S fuel)) parent None [] [] level value_dims =
      extend_each
        (fun attrpath =>
           let* block := recurse (S fuel) (node_get parent attrpath) None [] []
                                 (level + 1) value_dims in
           prefix_first attrpath (Py.max_len attrpaths) block)
        attrpaths [(level, ":" +:+ tn)]) /\
  (forall fuel tn child_a child_b level value_dims la line_a rest_a lb line_b
          rest_b,
      recurse (S fuel) child_a None [] [] (level + 1) value_dims =
        Ok ((la, line_a) :: rest_a) ->
      recurse (S fuel) child_b None [] [] (level + 1) value_dims =
        Ok ((lb, line_b) :: rest_b) ->
      recurse (S (S fuel))
              (GroupNode tn [(["a"], child_a); (["bb"], child_b)])
              None [] [] level value_dims =
      Ok ((level, ":" +:+ tn)
            :: ((la, ".a  " +:+ line_a) :: rest_a)
            ++ ((lb, ".bb " +:+ line_b) :: rest_b))).
Proof.
  assert (Hgroup : forall fuel tn children level value_dims,
      let parent := GroupNode tn children in
      let attrpaths := map (Py.join ".") (map fst children) in
      recurse (S (S fuel)) parent None [] [] level value_dims =
      extend_each
        (fun attrpath =>
           let* block := recurse (S fuel) (node_get parent attrpath) None [] []
                                 (level + 1) value_dims in
           prefix_first attrpath (Py.max_len attrpaths) block)
        attrpaths [(level, ":" +:+ tn)]).
  { intros. rewrite recurse_S, node_info_block. subst parent attrpaths.
    cbn [GroupNode node_block hasattr_children has_children bind node_keys].
    cbv zeta. apply extend_each_ext. intros attrpath Hin.
    now apply recurse_attrpath. }
  split; [| split; [| split]].
  - intros * Hin Hplain. rewrite (recurse_attrpath _ _ _ _ _ _ _ Hin), Hplain.
    reflexivity.
  - intros attrpath. unfold Py.max_len. simpl. apply Nat.max_0_r.
  - exact Hgroup.
  - intros * Ha Hb. rewrite Hgroup.
    change (map (Py.join ".") (map fst [(["a"], child_a); (["bb"], child_b)]))
      with ["a"; "bb"].
    cbn [extend_each].
    change (node_get _ "a") with child_a. change (node_get _ "bb") with child_b.
    rewrite Ha. cbn [bind prefix_first]. rewrite Hb. reflexivity.
Qed.

(** The decoration at work on the children "a" and "bb" of a Layout. *)
Lemma path_prefix_decoration_witness :
  recurse 2 Examples.image (Some "a") ["a"; "bb"] [] 1 true =
  Ok [(1, ".a  :Image   [x,y]   (z)")] /\
  recurse 5 (GroupNode "Layout" [(["a"], Examples.image); (["bb"], Examples.curve)])
          None [] [] 0 true =
  Ok [(0, ":Layout"); (1, ".a  :Image   [x,y]   (z)");
      (1, ".bb :Curve   [t]   (v)")].
Proof.
  split.
  - apply (proj1 path_prefix_decoration 2%nat Examples.image "a" ["a"; "bb"] []
                 1 true 1 ":Image   [x,y]   (z)" []).
    + simpl. auto.
    + vm_compute. reflexivity.
  - apply (proj2 (proj2 (proj2 path_prefix_decoration)) 3%nat "Layout"
                 Examples.image Examples.curve 0 true 1 ":Image   [x,y]   (z)"
                 [] 1 ":Curve   [t]   (v)" []).
    + vm_compute. reflexivity.
    + vm_compute. reflexivity.
Defined.

Section WithLiteral.

#[local] Existing Instance Literal.ext.

Example literal_highlight :
highlight (Some "ab") "xABz" =
Ok ("x" +:+ esc +:+ "[43;1;30mAB" +:+ esc +:+ "[0mz").
Proof. vm_compute. reflexivity. Qed.

Example literal_strip :
strip_ansi (esc +:+ "[1;35mTitle" +:+ esc +:+ "[0m")
= Ok "Title".
Proof. vm_compute. reflexivity. Qed.

Example literal_filter_demo :
params <$> (match ParamFilter Literal.Demo
                    (Some (regexp_filter "bounds")) with
            | Ok p => Some p | _ => None end)
= Some ({[ "alpha" := Literal.alpha;
           "name" := Parameterized_name ]}).
Proof. vm_compute. reflexivity. Qed.

Example literal_info_demo :
info true Literal.store Literal.Demo false "matplotlib"
     true (Some "bounds")
= ([PagerCall (class_proxy "Demo"
                 [("alpha", Literal.alpha)])],
   Ok ("Parameters of Demo: alpha, name")).
Proof. vm_compute. reflexivity. Qed.

End WithLiteral.

(** ** Properties of the parameter filter and the reporter *)

Section ReporterFacts.

Context {ext : External}.

Lemma regexp_filter_true pattern name p :
  regexp_filter pattern name p = Ok true <-> found pattern name p.
Proof.
  unfold regexp_filter, found.
  destruct (re_search false pattern name) as [[|] | e |]; cbn [bind].
  - split; [intros _; now left | intros _; reflexivity].
  - destruct (doc p) as [d |]; cbn [bind].
    + destruct (re_search false pattern d) as [[|] | e |] eqn:E; cbn [bind].
      * split; [intros _ | reflexivity].
        right. split; [reflexivity |]. exists d. now split.
      * split; [discriminate |].
        intros [H | (_ & d' & [= <-] & H)]; congruence.
      * split; [discriminate |].
        intros [H | (_ & d' & [= <-] & H)]; congruence.
      * split; [discriminate |].
        intros [H | (_ & d' & [= <-] & H)]; congruence.
    + split; [discriminate |].
      intros [H | (_ & d' & H & _)]; discriminate H.
  - split; [discriminate | intros [H | (H & _)]; discriminate H].
  - split; [discriminate | intros [H | (H & _)]; discriminate H].
Qed.

Lemma regexp_filter_both pattern name p d found_name found_doc :
  doc p = Some d ->
  re_search false pattern name = Ok found_name ->
  re_search false pattern d = Ok found_doc ->
  regexp_filter pattern name p = Ok (found_name || found_doc).
Proof.
  intros Hd Hn Hdoc. unfold regexp_filter. rewrite Hn, Hd. cbn [bind].
  destruct found_name; [reflexivity |]. rewrite Hdoc.
  now destruct found_doc.
Qed.

Lemma filter_items_sublist filter_fn items kept :
  filter_items filter_fn items = Ok kept -> kept `sublist_of` items.
Proof.
  revert kept. induction items as [| [k v] items IH]; intros kept; simpl.
  - intros [= <-]. constructor.
  - intros H. apply bind_Ok_inv in H as (keep & _ & H).
    apply bind_Ok_inv in H as (kept' & Hk & [= <-]).
    destruct keep; [apply sublist_skip | apply sublist_cons]; now apply IH.
Qed.

Lemma filter_items_elem filter_fn items kept :
  filter_items filter_fn items = Ok kept ->
  forall k v, (k, v) ∈ kept <-> (k, v) ∈ items /\ filter_fn k v = Ok true.
Proof.
  revert kept. induction items as [| [k0 v0] items IH]; intros kept; simpl.
  - intros [= <-] k v. split; [intros H | intros [H _]]; inversion H.
  - intros H k v. apply bind_Ok_inv in H as (keep & Hkeep & H).
    apply bind_Ok_inv in H as (kept' & Hk & [= <-]).
    specialize (IH kept' Hk k v). rewrite elem_of_cons.
    destruct keep.
    + rewrite elem_of_cons, IH. split.
      * intros [[= -> ->] | [Hin Hf]]; [split; [now left | exact Hkeep] |].
        split; [now right | exact Hf].
      * intros [[[= -> ->] | Hin] Hf]; [now left | right; now split].
    + rewrite IH. split.
      * intros [Hin Hf]. split; [now right | exact Hf].
      * intros [[[= -> ->] | Hin] Hf]; [congruence | now split].
Qed.

Lemma ParamFilter_params obj filter_fn proxy :
  ParamFilter obj (Some filter_fn) = Ok proxy ->
  exists kept,
    filter_items filter_fn (map_to_list (params obj)) = Ok kept /\
    params proxy = list_to_map kept ∪ {[ "name" := Parameterized_name ]} /\
    cls_name proxy = cls_name obj /\ isclass proxy = isclass obj.
Proof.
  unfold ParamFilter. intros H. cbv zeta in H.
  apply bind_Ok_inv in H as (kept & Hk & H). exists kept.
  destruct (isclass obj); injection H as <-; auto.
Qed.

(** The parameters of the proxy: those of the object that the predicate
    accepts, and [name]. *)
Lemma ParamFilter_retains obj filter_fn proxy :
  ParamFilter obj (Some filter_fn) = Ok proxy ->
  is_Some (params proxy !! "name") /\
  forall k p,
    k <> "name" ->
    (params proxy !! k = Some p <->
     params obj !! k = Some p /\ filter_fn k p = Ok true).
Proof.
  intros H. apply ParamFilter_params in H as (kept & Hk & -> & _).
  assert (Hnd : NoDup kept.*1).
  { eapply sublist_NoDup; [apply (NoDup_fst_map_to_list (params obj)) |].
    apply fmap_sublist. eapply filter_items_sublist; eassumption. }
  split.
  - destruct ((list_to_map kept : gmap string PyParameter) !! "name")
      as [p |] eqn:E.
    + exists p. now apply lookup_union_Some_l.
    + exists Parameterized_name. rewrite lookup_union_r by exact E.
      apply lookup_singleton_eq.
  - intros k p Hne. rewrite lookup_union_Some_raw, lookup_singleton_Some.
    rewrite <- (elem_of_list_to_map (M := gmap string) kept k p Hnd).
    rewrite (filter_items_elem _ _ _ Hk), elem_of_map_to_list.
    split; [intros [H | (_ & Heq & _)]; [exact H | congruence] | now left].
Qed.

End ReporterFacts.

(** C8: the predicate of [regexp_filter(pattern)] returns true exactly when a
    search without flags, hence case-sensitive, finds the pattern in the name
    of the parameter or in its documentation string.  With the name "alpha"
    and the doc "controls bounds" the pattern "bounds" is accepted, "zzz" and
    "BOUNDS" are rejected. *)
Theorem regexp_filter_matches_name_or_doc :
  (forall (ext : External) pattern name p,
      regexp_filter pattern name p = Ok true <->
      re_search false pattern name = Ok true \/
      (re_search false pattern name = Ok false /\
       exists d, doc p = Some d /\ re_search false pattern d = Ok true)) /\
  (forall (ext : External) pattern name p d found_name found_doc,
      doc p = Some d ->
      re_search false pattern name = Ok found_name ->
      re_search false pattern d = Ok found_doc ->
      regexp_filter pattern name p = Ok (found_name || found_doc)) /\
  regexp_filter (ext := Literal.ext) "bounds" "alpha" Literal.alpha = Ok true /\
  regexp_filter (ext := Literal.ext) "zzz" "alpha" Literal.alpha = Ok false /\
  regexp_filter (ext := Literal.ext) "BOUNDS" "alpha" Literal.alpha = Ok false.
Proof.
  split; [| split; [| split; [| split]]].
  - intros. apply regexp_filter_true.
  - intros. eapply regexp_filter_both; eassumption.
  - vm_compute. reflexivity.
  - vm_compute. reflexivity.
  - vm_compute. reflexivity.
Qed.

(** The predicate on the name "alpha" and the doc "controls bounds". *)
Lemma regexp_filter_matches_name_or_doc_witness :
  regexp_filter (ext := Literal.ext) "bounds" "alpha" Literal.alpha =
  Ok (false || true).
Proof.
  apply (proj1 (proj2 regexp_filter_matches_name_or_doc) Literal.ext "bounds"
               "alpha" Literal.alpha "controls bounds" false true).
  - reflexivity.
  - vm_compute. reflexivity.
  - vm_compute. reflexivity.
Defined.

(** C4, as amended: the filtering of the report is case-sensitive.  A
    parameter other than the inherited [name] is in the filtered object
    exactly when a search without [re.IGNORECASE] finds the pattern in its
    name or in its documentation string; [name] is always there. *)
Theorem filtering_is_case_sensitive (ext : External) obj pattern proxy :
  ParamFilter obj (Some (regexp_filter pattern)) = Ok proxy ->
  is_Some (params proxy !! "name") /\
  forall k p,
    k <> "name" ->
    (params proxy !! k = Some p <->
     params obj !! k = Some p /\
     (re_search false pattern k = Ok true \/
      (re_search false pattern k = Ok false /\
       exists d, doc p = Some d /\ re_search false pattern d = Ok true))).
Proof.
  intros H. destruct (ParamFilter_retains _ _ _ H) as [Hname Hkeep].
  split; [exact Hname |]. intros k p Hne.
  rewrite (Hkeep k p Hne), regexp_filter_true. reflexivity.
Qed.

(** The filter at work on [Demo] with the pattern "bounds". *)
Lemma filtering_is_case_sensitive_witness :
  is_Some (params (class_proxy (ext := Literal.ext) "Demo"
                     [("alpha", Literal.alpha)]) !! "name") /\
  forall k p,
    k <> "name" ->
    (params (class_proxy (ext := Literal.ext) "Demo"
               [("alpha", Literal.alpha)]) !! k = Some p <->
     params Literal.Demo !! k = Some p /\
     (re_search (External := Literal.ext) false "bounds" k = Ok true \/
      (re_search (External := Literal.ext) false "bounds" k = Ok false /\
       exists d, doc p = Some d /\
                 re_search (External := Literal.ext) false "bounds" d = Ok true))).
Proof.
  apply (filtering_is_case_sensitive Literal.ext Literal.Demo "bounds").
  vm_compute. reflexivity.
Defined.

(** C4, as stated, fails: the doc of [alpha] contains the pattern "BOUNDS" in
    another letter case, yet [alpha] is filtered out and the report says that
    nothing matches. *)
Lemma case_insensitive_filtering_fails :
  Literal.occurs (Py.lower "BOUNDS") (Py.lower "controls bounds") = true /\
  ParamFilter (ext := Literal.ext) Literal.Demo (Some (regexp_filter (ext := Literal.ext) "BOUNDS"))
  = Ok (class_proxy (ext := Literal.ext) "Demo" []) /\
  params (class_proxy (ext := Literal.ext) "Demo" []) !! "alpha" = None /\
  get_parameter_info (ext := Literal.ext) true Literal.Demo false true
                     (Some "BOUNDS") = ([], Ok None) /\
  info (ext := Literal.ext) true Literal.store Literal.Demo false "matplotlib"
       true (Some "BOUNDS")
  = ([], Ok "No 'Demo' parameters found matching pattern 'BOUNDS'").
Proof. repeat split; vm_compute; reflexivity. Qed.

(** C7: on the path without visualization, when a pattern leaves at most one
    parameter in the filtered object, [info] returns the message that names
    the object and the pattern, and the pager is not called. *)
Theorem info_no_matching_parameters (ext : External) ppager store obj ansi
    backend visualization pattern plot_class proxy :
  lookup_plot_class store backend obj = Ok plot_class ->
  visualization = false \/ plot_class = None ->
  ParamFilter obj (Some (regexp_filter pattern)) = Ok proxy ->
  (size (params proxy) <= 1)%nat ->
  info ppager store obj ansi backend visualization (Some pattern) =
  ([], Ok ("No " +:+ repr (cls_name obj)
                 +:+ " parameters found matching pattern " +:+ repr pattern)).
Proof.
  intros Hplot Hpath Hfilter Hsize. unfold info.
  rewrite Hplot. cbn [tlift tbind].
  assert (Hcond : negb visualization
                  || match plot_class with None => true | Some _ => false end
                  = true).
  { destruct Hpath as [-> | ->]; [reflexivity | apply orb_true_r]. }
  rewrite Hcond, Hfilter. cbn [tlift tbind].
  apply Nat.leb_le in Hsize. rewrite Hsize. reflexivity.
Qed.

(** [Demo] and the pattern "zzz", with no plotting class registered. *)
Lemma info_no_matching_parameters_witness :
  info (ext := Literal.ext) true Literal.store Literal.Demo false "matplotlib"
       true (Some "zzz")
  = ([], Ok "No 'Demo' parameters found matching pattern 'zzz'").
Proof.
  apply (info_no_matching_parameters Literal.ext true Literal.store
           Literal.Demo false "matplotlib" true "zzz" None
           (class_proxy (ext := Literal.ext) "Demo" [])).
  - vm_compute. reflexivity.
  - right. reflexivity.
  - vm_compute. reflexivity.
  - vm_compute. lia.
Defined.

(** ** Further properties of the pretty-printer *)




Lemma list_max_attained (x : nat) (l : list nat) :
  Exists (fun k => k = list_max (x :: l)) (x :: l).
Proof.
  revert x. induction l as [| y l IH]; intros x.
  - left. simpl. lia.
  - destruct (Nat.le_gt_cases (list_max (y :: l)) x) as [Hle | Hgt].
    + left. change (list_max (x :: y :: l)) with (Nat.max x (list_max (y :: l))).
      lia.
    + right. change (list_max (x :: y :: l)) with (Nat.max x (list_max (y :: l))).
      rewrite Nat.max_r by lia. apply IH.
Qed.

(** X1: [padding] of an empty list raises IndexError; of any other list it is
    the length of a longest item: no item is longer and one is that long. *)
Theorem padding_is_longest :
  padding [] = Raise IndexError /\
  forall x items,
    padding (x :: items) = Ok (Py.max_len (x :: items)) /\
    Forall (fun p => (String.length p <= Py.max_len (x :: items))%nat)
           (x :: items) /\
    Exists (fun p => String.length p = Py.max_len (x :: items)) (x :: items).
Proof.
  split; [reflexivity |]. intros x items. split; [apply padding_nonempty |].
  unfold Py.max_len. split.
  - apply List.Forall_forall. intros p Hp.
    assert (H : Forall (fun k => (k <= list_max (map String.length (x :: items)))%nat)
                       (map String.length (x :: items)))
      by now apply list_max_le.
    rewrite List.Forall_forall in H. apply H. now apply in_map.
  - pose proof (list_max_attained (String.length x) (map String.length items))
      as H.
    change (String.length x :: map String.length items)
      with (map String.length (x :: items)) in H.
    apply List.Exists_exists in H as (k & Hin & Hk).
    apply in_map_iff in Hin as (p & <- & Hp).
    apply List.Exists_exists. now exists p.
Qed.


Lemma shift_shift (ls : lines) (a b : Z) : shift (shift ls a) b = shift ls (a + b).
Proof.
  unfold shift. rewrite map_map. apply map_ext. intros [lvl line].
  f_equal. lia.
Qed.

Lemma shift_0 (ls : lines) : shift ls 0 = ls.
Proof.
  unfold shift. rewrite <- (map_id ls) at 2. apply map_ext. intros [lvl line].
  f_equal. lia.
Qed.

Lemma shift_app (l1 l2 : lines) (a : Z) :
  shift (l1 ++ l2) a = shift l1 a ++ shift l2 a.
Proof. apply map_app. Qed.

(** X3: shifting composes by adding the shifts, a shift by zero changes
    nothing, and a shift never touches the text of a line nor the number of
    lines. *)
Theorem shift_composes (ls : lines) (a b : Z) :
  shift (shift ls a) b = shift ls (a + b) /\
  shift ls 0 = ls /\
  map snd (shift ls a) = map snd ls /\
  map fst (shift ls a) = map (fun lvl => lvl + a) (map fst ls).
Proof.
  split; [apply shift_shift | split; [apply shift_0 | split]].
  - unfold shift. rewrite map_map. apply map_ext. now intros [lvl line].
  - unfold shift. rewrite !map_map. apply map_ext. now intros [lvl line].
Qed.

Lemma concat_cons_cons (sep x y : string) (l : list string) :
  String.concat sep (x :: y :: l) = x +:+ sep +:+ String.concat sep (y :: l).
Proof. reflexivity. Qed.

Lemma concat_app_cons (sep : string) (l1 : list string) (x y : string)
    (l2 : list string) :
  String.concat sep ((x :: l1) ++ y :: l2) =
  String.concat sep (x :: l1) +:+ sep +:+ String.concat sep (y :: l2).
Proof.
  revert x. induction l1 as [| z l1 IH]; intros x.
  - reflexivity.
  - change ((x :: z :: l1) ++ y :: l2) with (x :: ((z :: l1) ++ y :: l2)).
    change ((z :: l1) ++ y :: l2) with (z :: (l1 ++ y :: l2)).
    rewrite concat_cons_cons.
    change (z :: (l1 ++ y :: l2)) with ((z :: l1) ++ y :: l2).
    rewrite IH, concat_cons_cons, !append_assoc. reflexivity.
Qed.

(** X4: [serialize] indents a line by three spaces per level, not at all for
    a level below zero, and puts a newline between the texts of two
    non-empty runs of lines. *)
Theorem serialize_layout :
  serialize [] = "" /\
  (forall level line,
      serialize [(level, line)] =
      Py.repeat_nat " " (3 * Z.to_nat level) +:+ line) /\
  (forall x l1 y l2,
      serialize ((x :: l1) ++ y :: l2) =
      serialize (x :: l1) +:+ Py.nl +:+ serialize (y :: l2)).
Proof.
  split; [reflexivity | split].
  - intros level line. unfold serialize, Py.join, Py.repeat. cbn [map String.concat].
    f_equal. induction (Z.to_nat level) as [| n IH]; [reflexivity |].
    replace (3 * S n)%nat with (S (S (S (3 * n)))) by lia.
    cbn [Py.repeat_nat]. rewrite IH. reflexivity.
  - intros x l1 y l2. unfold serialize, Py.join.
    rewrite map_app. cbn [map]. apply concat_app_cons.
Qed.

Lemma extend_each_shift {A : Type} (body body' : A -> outcome lines)
    (items : list A) (acc : lines) (d : Z) :
  (forall x, body' x = let* ls := body x in Ok (shift ls d)) ->
  extend_each body' items (shift acc d) =
  let* r := extend_each body items acc in Ok (shift r d).
Proof.
  intros Hb. revert acc. induction items as [| x xs IH]; intros acc.
  - reflexivity.
  - cbn [extend_each]. rewrite Hb.
    destruct (body x) as [more | e |]; cbn [bind]; try reflexivity.
    rewrite <- shift_app. apply IH.
Qed.

Lemma element_info_level_shift n siblings level d value_dims :
  element_info n siblings (level + d) value_dims =
  let* (lvl, ls) := element_info n siblings level value_dims in
  Ok (lvl + d, shift ls d).
Proof.
  rewrite !(element_info_no_siblings n siblings). unfold element_info.
  cbn [bind]. destruct (node_kdims n) as [kd | |]; cbn [bind]; try reflexivity.
  destruct value_dims; [| reflexivity].
  destruct (node_vdims n) as [vd | |]; reflexivity.
Qed.

Lemma prefix_first_shift attrpath pad ls d :
  prefix_first attrpath pad (shift ls d) =
  let* ls' := prefix_first attrpath pad ls in Ok (shift ls' d).
Proof. destruct ls as [| [lvl line] rest]; reflexivity. Qed.

Lemma level_shift_all (fuel : nat) (d : Z) :
  (forall n ap aps sibs level vd,
      recurse fuel n ap aps sibs (level + d) vd =
      let* ls := recurse fuel n ap aps sibs level vd in Ok (shift ls d)) /\
  (forall n ap aps sibs level vd,
      node_info fuel n ap aps sibs (level + d) vd =
      let* (lvl, ls) := node_info fuel n ap aps sibs level vd in
      Ok (lvl + d, shift ls d)) /\
  (forall n sibs level vd,
      adjointlayout_info fuel n sibs (level + d) vd =
      let* (lvl, ls) := adjointlayout_info fuel n sibs level vd in
      Ok (lvl + d, shift ls d)) /\
  (forall n sibs level vd,
      ndmapping_info fuel n sibs (level + d) vd =
      let* (lvl, ls) := ndmapping_info fuel n sibs level vd in
      Ok (lvl + d, shift ls d)).
Proof.
  induction fuel as [| fuel (IHr & IHn & IHa & IHm)];
    [repeat split; reflexivity |].
  split; [| split; [| split]].
  - intros. rewrite !recurse_S, IHn.
    destruct (node_info fuel n ap aps sibs level vd) as [[lvl ls] | |];
      cbn [bind]; try reflexivity.
    destruct (if hasattr_children n then _ else _) as [paths | |]; cbn [bind];
      try reflexivity.
    cbv zeta. apply extend_each_shift. intros path.
    replace (lvl + d + 1) with (lvl + 1 + d) by lia. apply IHr.
  - intros. rewrite !node_info_S.
    assert (Hbase :
      (if hasattr_children n then Ok (level + d, [(level + d, component_type n)])
       else if hasattr_main n
            then adjointlayout_info fuel n sibs (level + d) vd
       else if getattr_deep_indexable_or n false
            then ndmapping_info fuel n sibs (level + d) vd
       else element_info n sibs (level + d) vd) =
      let* (lvl, ls) :=
        (if hasattr_children n then Ok (level, [(level, component_type n)])
         else if hasattr_main n
              then adjointlayout_info fuel n sibs level vd
         else if getattr_deep_indexable_or n false
              then ndmapping_info fuel n sibs level vd
         else element_info n sibs level vd) in
      Ok (lvl + d, shift ls d)).
    { destruct (hasattr_children n); [reflexivity |].
      destruct (hasattr_main n); [apply IHa |].
      destruct (getattr_deep_indexable_or n false);
        [apply IHm | apply element_info_level_shift]. }
    rewrite Hbase. clear Hbase.
    match goal with
    | |- bind (bind ?base _) _ = _ => destruct base as [[lvl ls] | |]
    end; cbn [bind]; try reflexivity.
    destruct ap as [attrpath |]; [| reflexivity].
    destruct (padding aps) as [pad | |]; cbn [bind]; try reflexivity.
    rewrite prefix_first_shift.
    destruct (prefix_first attrpath pad ls); reflexivity.
  - intros. rewrite !adjointlayout_info_S.
    destruct (node_data n) as [data | |]; cbn [bind]; try reflexivity.
    pose proof (extend_each_shift
                  (fun component => recurse fuel component None [] [] level true)
                  (fun component =>
                     recurse fuel component None [] [] (level + d) true)
                  (map snd data) [] d (fun c => IHr c None [] [] level true))
      as E.
    change (shift [] d) with (@nil (Z * string)) in E. rewrite E. clear E.
    destruct (extend_each _ (map snd data) []) as [al | |]; cbn [bind];
      try reflexivity.
    rewrite shift_app, !shift_shift, (Z.add_comm d 1). reflexivity.
  - intros. rewrite !ndmapping_info_S.
    destruct (node_kdims n) as [kd | |]; cbn [bind]; try reflexivity.
    cbv zeta.
    destruct (node_data n) as [data | |]; cbn [bind]; try reflexivity.
    destruct (length data =? 0)%nat; [reflexivity |].
    destruct (Py.index_last (map snd data)) as [c | |]; cbn [bind];
      try reflexivity.
    destruct (hasattr_children c).
    + rewrite IHr.
      destruct (recurse fuel c None [] [] level true) as [al | |]; cbn [bind];
        try reflexivity.
      rewrite shift_app, !shift_shift, (Z.add_comm d 1). reflexivity.
    + destruct (if is_None c then _ else _) as [[|] | |]; cbn [bind];
        try reflexivity.
      * rewrite IHm.
        destruct (ndmapping_info fuel c [] level vd) as [[lvl al] | |];
          cbn [bind]; try reflexivity.
        rewrite shift_app, !shift_shift, (Z.add_comm d 1). reflexivity.
      * rewrite element_info_level_shift.
        destruct (element_info c sibs level vd) as [[lvl al] | |]; cbn [bind];
          try reflexivity.
        rewrite shift_app, !shift_shift, (Z.add_comm d 1). reflexivity.
Qed.

(** X5: printing a node at a deeper level is printing it and shifting the
    result: for every node and all arguments, the block at [level + d] is the
    block at [level] shifted by [d], and the same error otherwise. *)
Theorem recurse_level_translation fuel n attrpath attrpaths siblings level d
    value_dims :
  recurse fuel n attrpath attrpaths siblings (level + d) value_dims =
  let* ls := recurse fuel n attrpath attrpaths siblings level value_dims in
  Ok (shift ls d).
Proof. apply level_shift_all. Qed.

Lemma block_all_ge (level : Z) (ls : lines) :
  block_at level ls -> Forall (fun l : Z * string => level <= fst l) ls.
Proof.
  intros (line & rest & -> & Hrest). constructor; [simpl; lia |].
  eapply List.Forall_impl; [| exact Hrest]. intros [l t]; simpl; lia.
Qed.

Lemma Forall_shift_1 (level : Z) (ls : lines) :
  Forall (fun l : Z * string => level <= fst l) ls ->
  Forall (fun l : Z * string => level + 1 <= fst l) (shift ls 1).
Proof.
  intros H. unfold shift. apply List.Forall_map.
  eapply List.Forall_impl; [| exact H]. intros [l t]; simpl; lia.
Qed.

Lemma extend_each_Forall {A B : Type} (P : B -> Prop)
    (body : A -> outcome (list B)) (items : list A) :
  (forall x more, body x = Ok more -> Forall P more) ->
  forall acc r, extend_each body items acc = Ok r ->
                exists more, r = acc ++ more /\ Forall P more.
Proof.
  intros Hb. induction items as [| x xs IH]; intros acc r; cbn [extend_each].
  - intros [= <-]. exists []. split; [now rewrite app_nil_r | constructor].
  - intros H. apply bind_Ok_inv in H as (m & Hm & H).
    apply IH in H as (more & -> & Hmore). exists (m ++ more).
    split; [now rewrite app_assoc |].
    apply List.Forall_app. split; [eapply Hb; eassumption | exact Hmore].
Qed.

Lemma block_shape_all (fuel : nat) :
  (forall n ap aps sibs level vd ls,
      recurse fuel n ap aps sibs level vd = Ok ls -> block_at level ls) /\
  (forall n ap aps sibs level vd lvl ls,
      node_info fuel n ap aps sibs level vd = Ok (lvl, ls) ->
      lvl = level /\ block_at level ls) /\
  (forall n sibs level vd lvl ls,
      adjointlayout_info fuel n sibs level vd = Ok (lvl, ls) ->
      lvl = level /\ block_at level ls) /\
  (forall n sibs level vd lvl ls,
      ndmapping_info fuel n sibs level vd = Ok (lvl, ls) ->
      lvl = level /\ block_at level ls).
Proof.
  induction fuel as [| fuel (IHr & IHn & IHa & IHm)];
    [repeat split; discriminate |].
  assert (Helem : forall n sibs level vd lvl ls,
             element_info n sibs level vd = Ok (lvl, ls) ->
             lvl = level /\ block_at level ls).
  { intros * H. unfold element_info in H.
    apply bind_Ok_inv in H as (? & _ & H).
    apply bind_Ok_inv in H as (kd & _ & H).
    apply bind_Ok_inv in H as (info & _ & [= <- <-]).
    split; [reflexivity |]. exists info, []. split; [reflexivity | constructor]. }
  split; [| split; [| split]].
  - intros * H. rewrite recurse_S in H.
    apply bind_Ok_inv in H as ([lvl ls0] & Hn & H).
    apply IHn in Hn as (-> & line & rest & -> & Hrest).
    apply bind_Ok_inv in H as (paths & _ & H). cbv zeta in H.
    apply (extend_each_Forall (fun l : Z * string => level + 1 <= fst l)) in H
      as (more & -> & Hmore).
    + exists line, (rest ++ more). split; [reflexivity |].
      apply List.Forall_app. now split.
    + intros path m Hm. apply IHr in Hm. now apply block_all_ge.
  - intros * H. rewrite node_info_S in H.
    apply bind_Ok_inv in H as ([lvl0 ls0] & Hbase & H).
    assert (Hb : lvl0 = level /\ block_at level ls0).
    { destruct (hasattr_children n).
      - injection Hbase as <- <-. split; [reflexivity |].
        exists (component_type n), []. split; [reflexivity | constructor].
      - destruct (hasattr_main n); [now apply IHa in Hbase |].
        destruct (getattr_deep_indexable_or n false);
          [now apply IHm in Hbase | now apply Helem in Hbase]. }
    destruct Hb as (-> & line & rest & -> & Hrest).
    destruct ap as [attrpath |].
    + apply bind_Ok_inv in H as (pad & _ & H). cbn [prefix_first bind] in H.
      injection H as <- <-. split; [reflexivity |]. unfold block_at. eauto.
    + injection H as <- <-. split; [reflexivity |]. unfold block_at. eauto.
  - intros * H. rewrite adjointlayout_info_S in H.
    apply bind_Ok_inv in H as (data & _ & H).
    apply bind_Ok_inv in H as (al & Hal & [= <- <-]). split; [reflexivity |].
    exists (component_type n), (shift al 1). split; [reflexivity |].
    apply Forall_shift_1.
    apply (extend_each_Forall (fun l : Z * string => level <= fst l)) in Hal
      as (more & -> & Hmore); [exact Hmore |].
    intros c m Hm. apply IHr in Hm. now apply block_all_ge.
  - intros * H. rewrite ndmapping_info_S in H.
    apply bind_Ok_inv in H as (kd & _ & H). cbv zeta in H.
    apply bind_Ok_inv in H as (data & _ & H).
    destruct (length data =? 0)%nat.
    { injection H as <- <-. split; [reflexivity |].
      eexists _, []. split; [reflexivity | constructor]. }
    apply bind_Ok_inv in H as (c & _ & H).
    apply bind_Ok_inv in H as ([lvl' al] & Hal & [= <- <-]).
    assert (Hb : lvl' = level /\ block_at level al).
    { destruct (hasattr_children c).
      - apply bind_Ok_inv in Hal as (al' & Hal & [= <- <-]).
        split; [reflexivity | now apply IHr in Hal].
      - apply bind_Ok_inv in Hal as (deep & _ & Hal). destruct deep.
        + now apply IHm in Hal.
        + apply bind_Ok_inv in Hal as ([lvl0 al0] & Hal & [= <- <-]).
          apply Helem in Hal as [_ Hal]. now split. }
    destruct Hb as [-> Hb]. split; [reflexivity |].
    eexists _, (shift al 1). split; [reflexivity |].
    apply Forall_shift_1. now apply block_all_ge.
Qed.

(** X6: a block that [recurse] returns is never empty: its first line is at
    the level asked for and every other line is strictly deeper. *)
Theorem recurse_block_shape fuel n attrpath attrpaths siblings level
    value_dims ls :
  recurse fuel n attrpath attrpaths siblings level value_dims = Ok ls ->
  exists line rest,
    ls = (level, line) :: rest /\
    Forall (fun l : Z * string => level + 1 <= fst l) rest.
Proof. apply block_shape_all. Qed.

(** The block of a Layout of an Image and a Curve, at level 4. *)
Lemma recurse_block_shape_witness :
  exists line rest,
    [(4, ":Layout"); (5, ".Image.I  :Image   [x,y]   (z)");
     (5, ".Curve.II :Curve   [t]   (v)")] = (4, line) :: rest /\
    Forall (fun l : Z * string => 4 + 1 <= fst l) rest.
Proof.
  apply (recurse_block_shape 5 Examples.layout None [] [] 4 true).
  vm_compute. reflexivity.
Defined.

(** X7: the level [ndmapping_info] and [node_info] hand back is the level
    they were given: a nested mapping does not change the level of its
    parent. *)
Theorem returned_level_unchanged :
  (forall fuel n siblings level value_dims lvl ls,
      ndmapping_info fuel n siblings level value_dims = Ok (lvl, ls) ->
      lvl = level) /\
  (forall fuel n attrpath attrpaths siblings level value_dims lvl ls,
      node_info fuel n attrpath attrpaths siblings level value_dims
      = Ok (lvl, ls) -> lvl = level).
Proof.
  split; intros * H.
  - now apply (proj2 (proj2 (proj2 (block_shape_all fuel)))) in H.
  - now apply (proj1 (proj2 (block_shape_all fuel))) in H.
Qed.

(** The level returned for a HoloMap of NdOverlays, printed at level 3. *)
Lemma returned_level_unchanged_witness :
  3 = 3 /\ 7 = 7.
Proof.
  split.
  - apply (proj1 returned_level_unchanged 3%nat Examples.holomap [] 3 true 3
             [(3, ":HoloMap   [a,b]"); (4, ":NdOverlay   [c]");
              (5, ":Curve   [t]   (v)")]).
    vm_compute. reflexivity.
  - apply (proj2 returned_level_unchanged 4%nat Examples.holomap None [] [] 7
             true 7
             [(7, ":HoloMap   [a,b]"); (8, ":NdOverlay   [c]");
              (9, ":Curve   [t]   (v)")]).
    vm_compute. reflexivity.
Defined.

Lemma recurse_mapping fuel tn kd d siblings level value_dims :
  recurse (S (S fuel)) (IndexableMapping tn kd d) None [] siblings level
          value_dims =
  let* (_, ls) := ndmapping_info fuel (IndexableMapping tn kd d) siblings level
                                 value_dims in
  Ok ls.
Proof.
  rewrite recurse_no_children by reflexivity. now rewrite node_info_mapping.
Qed.

Lemma pprint_same_blocks n1 n2 :
  (forall fuel, recurse fuel n1 None [] [] 0 true
                = recurse fuel n2 None [] [] 0 true) ->
  pprint n1 = pprint n2.
Proof.
  intros H. unfold pprint.
  rewrite <- (recurse_fuel_for n1 (fuel_for n1 + fuel_for n2)) by lia.
  rewrite <- (recurse_fuel_for n2 (fuel_for n1 + fuel_for n2)) by lia.
  now rewrite H.
Qed.

(** X8: of the entries of a mapping only the last one is printed: the other
    entries, and the key of the last one, do not change the output. *)
Theorem mapping_prints_last_entry_only tn kd init k k' c :
  (forall fuel siblings level value_dims,
      ndmapping_info fuel (IndexableMapping tn kd (init ++ [(k, c)])) siblings
                     level value_dims =
      ndmapping_info fuel (IndexableMapping tn kd [(k', c)]) siblings level
                     value_dims) /\
  pprint (IndexableMapping tn kd (init ++ [(k, c)])) =
  pprint (IndexableMapping tn kd [(k', c)]).
Proof.
  assert (Hm : forall fuel siblings level value_dims,
      ndmapping_info fuel (IndexableMapping tn kd (init ++ [(k, c)])) siblings
                     level value_dims =
      ndmapping_info fuel (IndexableMapping tn kd [(k', c)]) siblings level
                     value_dims).
  { intros [| fuel] *; [reflexivity |].
    change [(k', c)] with ([] ++ [(k', c)]).
    now rewrite !ndmapping_info_last. }
  split; [exact Hm |]. apply pprint_same_blocks.
  intros [| [| fuel]]; [reflexivity | reflexivity |].
  now rewrite !recurse_mapping, Hm.
Qed.

(** X9: the request not to show value dimensions is lost where the printer
    starts a new recursion: below a composite node, and below a mapping whose
    last entry is a group, value dimensions are always shown.  An
    AdjointLayout of an Image printed without value dimensions still shows
    "(z)". *)
Theorem value_dims_dropped :
  (forall fuel n siblings siblings' level value_dims value_dims',
      adjointlayout_info fuel n siblings level value_dims =
      adjointlayout_info fuel n siblings' level value_dims') /\
  (forall fuel tn kd init k tn' children siblings level value_dims,
      ndmapping_info fuel
        (IndexableMapping tn kd (init ++ [(k, GroupNode tn' children)]))
        siblings level value_dims =
      ndmapping_info fuel
        (IndexableMapping tn kd (init ++ [(k, GroupNode tn' children)]))
        siblings level true) /\
  recurse 5 (CompositeNode "AdjointLayout" [] [(["main"], Examples.image)])
          None [] [] 0 false =
  Ok [(0, ":AdjointLayout"); (1, ":Image   [x,y]   (z)")] /\
  recurse 5 Examples.image None [] [] 0 false = Ok [(0, ":Image   [x,y]")].
Proof.
  split; [| split; [| split]].
  - intros [| fuel] *; [reflexivity |]. now rewrite !adjointlayout_info_S.
  - intros [| fuel] *; [reflexivity |]. now rewrite !ndmapping_info_last.
  - vm_compute. reflexivity.
  - vm_compute. reflexivity.
Qed.

Lemma extend_each_blocks {A B : Type} (body : A -> outcome (list B))
    (items : list A) (blocks : list (list B)) (acc : list B) :
  Forall2 (fun x block => body x = Ok block) items blocks ->
  extend_each body items acc = Ok (acc ++ concat blocks).
Proof.
  intros H. revert acc.
  induction H as [| x block items blocks Hx _ IH]; intros acc.
  - cbn. now rewrite app_nil_r.
  - cbn [extend_each concat]. rewrite Hx. cbn [bind].
    rewrite IH. now rewrite app_assoc.
Qed.

(** X10: a composite node is printed as its type line followed by the blocks
    of all its components, in their stored order, each printed at the level
    of the composite and then shifted one level deeper. *)
Theorem composite_block fuel tn kd components blocks siblings level
    value_dims :
  Forall2 (fun c block => recurse fuel c None [] [] level true = Ok block)
          (map snd components) blocks ->
  recurse (S (S (S fuel))) (CompositeNode tn kd components) None [] siblings
          level value_dims =
  Ok ((level, ":" +:+ tn) :: shift (concat blocks) 1).
Proof.
  intros H. rewrite recurse_no_children by reflexivity.
  rewrite node_info_S.
  cbn [CompositeNode hasattr_children hasattr_main has_children has_main].
  rewrite adjointlayout_info_S.
  cbn [CompositeNode node_data bind].
  rewrite (extend_each_blocks _ _ _ [] H). reflexivity.
Qed.

(** An AdjointLayout of an Image and a Curve. *)
Lemma composite_block_witness :
  recurse 5 (CompositeNode "AdjointLayout" []
               [(["main"], Examples.image); (["right"], Examples.curve)])
          None [] [] 0 true =
  Ok ((0, ":" +:+ "AdjointLayout")
        :: shift (concat [[(0, ":Image   [x,y]   (z)")];
                          [(0, ":Curve   [t]   (v)")]]) 1).
Proof.
  apply (composite_block 2 "AdjointLayout" []
           [(["main"], Examples.image); (["right"], Examples.curve)]
           [[(0, ":Image   [x,y]   (z)")]; [(0, ":Curve   [t]   (v)")]]
           [] 0 true).
  repeat constructor.
Defined.

(** X11: what [element_info] reads of a node decides how it fails: [None] or
    an object without [kdims] raises AttributeError for [kdims]; an object
    with [kdims] but without [vdims] raises for [vdims] when value dimensions
    are requested, and is printed without reading [vdims] when they are
    not.  So [pprint(None)] raises. *)
Theorem element_info_attribute_errors :
  (forall siblings level value_dims,
      element_info PyNone siblings level value_dims =
      Raise (AttributeError "kdims")) /\
  (forall tn c m di vd d siblings level value_dims,
      element_info (PyObj tn (mkAttrs c m di None vd) d) siblings level
                   value_dims =
      Raise (AttributeError "kdims")) /\
  (forall tn c m di kd d siblings level,
      element_info (PyObj tn (mkAttrs c m di (Some kd) None) d) siblings level
                   true =
      Raise (AttributeError "vdims")) /\
  (forall tn c m di kd d siblings level,
      element_info (PyObj tn (mkAttrs c m di (Some kd) None) d) siblings level
                   false =
      Ok (level, [(level, spec_leaf_line tn kd [] false)])) /\
  pprint PyNone = Raise (AttributeError "kdims").
Proof.
  split; [| split; [| split; [| split]]].
  - intros. now rewrite element_info_no_siblings.
  - intros. now rewrite element_info_no_siblings.
  - intros. rewrite element_info_no_siblings. unfold element_info.
    cbn [node_kdims node_vdims bind]. reflexivity.
  - intros. rewrite element_info_no_siblings. unfold element_info, spec_leaf_line.
    cbn [node_kdims component_type bind].
    destruct kd as [| k kd]; cbn [length Nat.leb bind];
      rewrite ?append_nil_r; reflexivity.
  - vm_compute. reflexivity.
Qed.

(** X12: a path prefix needs sibling paths: when [node_info] is given an
    attribute path and an empty list of paths, it raises IndexError once the
    block of the node itself has been built, and so does [recurse]. *)
Theorem attrpath_without_attrpaths fuel n attrpath siblings level value_dims
    lvl ls :
  node_info (S fuel) n None [] siblings level value_dims = Ok (lvl, ls) ->
  node_info (S fuel) n (Some attrpath) [] siblings level value_dims =
  Raise IndexError /\
  recurse (S (S fuel)) n (Some attrpath) [] siblings level value_dims =
  Raise IndexError.
Proof.
  intros H.
  assert (Hn : node_info (S fuel) n (Some attrpath) [] siblings level value_dims
               = Raise IndexError).
  { rewrite node_info_S in *.
    apply bind_Ok_inv in H as ([lvl0 ls0] & -> & _). reflexivity. }
  split; [exact Hn |]. now rewrite recurse_S, Hn.
Qed.

(** An Image given the path "a" and no sibling paths. *)
Lemma attrpath_without_attrpaths_witness :
  node_info 1 Examples.image (Some "a") [] [] 0 true = Raise IndexError /\
  recurse 2 Examples.image (Some "a") [] [] 0 true = Raise IndexError.
Proof.
  apply (attrpath_without_attrpaths 0 Examples.image "a" [] 0 true 0
           [(0, ":Image   [x,y]   (z)")]).
  vm_compute. reflexivity.
Defined.

(** ** Further properties of the reporter *)


Lemma heading_level_0 text char ansi :
  exists h, heading text (Some char) 0 ansi = Ok h.
Proof. destruct ansi; eexists; reflexivity. Qed.

Lemma tbind_Ok_inv {A B : Type} (m : traced A) (k : A -> traced B) log (b : B) :
  tbind m k = (log, Ok b) ->
  exists log1 a log2,
    m = (log1, Ok a) /\ k a = (log2, Ok b) /\ log = log1 ++ log2.
Proof.
  destruct m as [log1 [a | e |]]; cbn [tbind]; try discriminate.
  destruct (k a) as [log2 r] eqn:E. intros [= <- ->]. eauto 6.
Qed.

Section ReporterMore.

Context {ext : External}.

Lemma get_parameter_info_no_pattern ppager obj ansi show_values :
  snd (get_parameter_info ppager obj ansi show_values None) <> Ok None.
Proof.
  unfold get_parameter_info, strip_ansi, highlight.
  destruct ppager, show_values, ansi; cbn; try discriminate;
    match goal with
    | |- context [re_sub ?a ?b ?c ?d] => destruct (re_sub a b c d)
    end; cbn; discriminate.
Qed.

Lemma join_snoc (sep : string) (x : string) (l : list string) (last : string) :
  Py.join sep ((x :: l) ++ [last]) = Py.join sep (x :: l) +:+ sep +:+ last.
Proof. unfold Py.join. apply concat_app_cons. Qed.

End ReporterMore.

Lemma join_app_two (sep x : string) (l : list string) (a b : string) :
  Py.join sep ((x :: l) ++ [a; b]) =
  Py.join sep (x :: l) +:+ sep +:+ a +:+ sep +:+ b.
Proof. unfold Py.join. now rewrite concat_app_cons. Qed.

Lemma pair_Ok_inj {L A : Type} (l1 l2 : L) (a b : A) :
  (l1, Ok a) = (l2, Ok b) -> l1 = l2 /\ a = b.
Proof. now intros [= -> ->]. Qed.

(** X14: without a pattern [get_parameter_info] never returns [None], so the
    options block always ends with the parameters of the plotting class: the
    wording "No ... parameters found." of [options_info] cannot be
    produced. *)
Theorem no_pattern_always_reports (ext : External) :
  (forall ppager obj ansi show_values,
      snd (get_parameter_info ppager obj ansi show_values None) <> Ok None) /\
  (forall ppager plot_class ansi log text,
      options_info ppager plot_class ansi None = (log, Ok text) ->
      exists body param_info,
        text = body +:+ Py.nl
                    +:+ ("The plot options are the parameters of the plotting class:"
                         +:+ Py.nl)
                    +:+ Py.nl +:+ param_info).
Proof.
  split; [intros; apply get_parameter_info_no_pattern |].
  intros * H. unfold options_info in H.
  apply tbind_Ok_inv in H as (log1 & pi & log2 & Hpi & H & _).
  apply tbind_Ok_inv in H as (log3 & hs & log4 & _ & H & _).
  apply tbind_Ok_inv in H as (log5 & hp & log6 & _ & H & _).
  destruct pi as [param_info |].
  - apply pair_Ok_inj in H as [_ <-].
    match goal with
    | |- context [Py.join _ ((?x :: ?l) ++ [?a; ?b])] =>
        exists (Py.join Py.nl (x :: l)), b; apply join_app_two
    end.
  - pose proof (get_parameter_info_no_pattern ppager
                  (plot_parameterized plot_class) ansi true) as Hn.
    rewrite Hpi in Hn. now contradiction Hn.
Qed.

(** The options block of a plotting class without style options. *)
Lemma no_pattern_always_reports_witness :
  exists body param_info,
    Py.join Py.nl
      ["-------------"; "Style Options"; "-------------"; "";
       Py.tabchar +:+ "<No style options available>"; "";
       "------------"; "Plot Options"; "------------"; "";
       "The plot options are the parameters of the plotting class:";
       ""; "Parameters of Demo: alpha, name"]
    = body +:+ Py.nl
           +:+ ("The plot options are the parameters of the plotting class:"
                +:+ Py.nl)
           +:+ Py.nl +:+ param_info.
Proof.
  apply (proj2 (no_pattern_always_reports Literal.ext) true
               (mkPlotClass Literal.Demo [] "matplotlib") false
               [PagerGetParamInfo Literal.Demo; PagerParamDocstrings;
                PagerCall Literal.Demo]).
  vm_compute. reflexivity.
Defined.

(** X15: when the pattern leaves at most one parameter of the plotting class,
    [options_info] calls the pager not at all and its text ends with the line
    that names the class and the pattern. *)
Theorem options_info_no_match (ext : External) plot_class ansi pattern proxy :
  ParamFilter (plot_parameterized plot_class) (Some (regexp_filter pattern))
  = Ok proxy ->
  (size (params proxy) <= 1)%nat ->
  exists body,
    options_info true plot_class ansi (Some pattern) =
    ([], Ok (body +:+ Py.nl +:+ "No "
                  +:+ repr (cls_name (plot_parameterized plot_class))
                  +:+ " parameters found matching pattern "
                  +:+ repr pattern +:+ ".")).
Proof.
  intros Hf Hsize. unfold options_info, get_parameter_info.
  cbn [negb]. rewrite Hf. cbn [tlift tbind].
  apply Nat.leb_le in Hsize. rewrite Hsize. cbn [tret tbind app].
  destruct (heading_level_0 "Style Options" "-" ansi) as [hs ->].
  destruct (heading_level_0 "Plot Options" "-" ansi) as [hp ->].
  cbn [tlift tbind]. unfold tret.
  match goal with
  | |- context [Py.join _ [?a; ?b; ?c; ?d; ?e; ?f; ?g]] =>
      exists (Py.join Py.nl [a; b; c; d; e; f]);
      change [a; b; c; d; e; f; g] with ((a :: [b; c; d; e; f]) ++ [g]);
      rewrite (join_snoc Py.nl a [b; c; d; e; f] g)
  end.
  reflexivity.
Qed.

(** [Demo] as a plotting class and the pattern "zzz". *)
Lemma options_info_no_match_witness :
  exists body,
    options_info (ext := Literal.ext) true
      (mkPlotClass Literal.Demo [] "matplotlib") false (Some "zzz") =
    ([], Ok (body +:+ Py.nl +:+ "No "
                  +:+ repr (External := Literal.ext) "Demo"
                  +:+ " parameters found matching pattern "
                  +:+ repr (External := Literal.ext) "zzz" +:+ ".")).
Proof.
  apply (options_info_no_match Literal.ext
           (mkPlotClass Literal.Demo [] "matplotlib") false "zzz"
           (class_proxy (ext := Literal.ext) "Demo" [])).
  - vm_compute. reflexivity.
  - vm_compute. lia.
Defined.

Section FilterMore.

Context {ext : External}.

Lemma regexp_filter_no_doc pattern name p :
  doc p = None -> re_search false pattern name = Ok false ->
  regexp_filter pattern name p = Raise TypeError.
Proof. intros Hd Hn. unfold regexp_filter. now rewrite Hn, Hd. Qed.

Lemma filter_items_raise filter_fn items e :
  (forall k v, In (k, v) items ->
               (exists b, filter_fn k v = Ok b) \/ filter_fn k v = Raise e) ->
  (exists k v, In (k, v) items /\ filter_fn k v = Raise e) ->
  filter_items filter_fn items = Raise e.
Proof.
  induction items as [| [k0 v0] items IH]; intros Hall (k & v & Hin & Hr).
  - destruct Hin.
  - cbn [filter_items].
    destruct (Hall k0 v0 (or_introl eq_refl)) as [[b Hb] | Hb];
      rewrite Hb; [| reflexivity].
    cbn [bind]. rewrite IH; [reflexivity | |].
    + intros k' v' Hin'. apply Hall. now right.
    + destruct Hin as [[= -> ->] | Hin]; [congruence |]. eauto.
Qed.

Lemma two_keys_size {A : Type} (m : gmap string A) (i j : string) (x y : A) :
  m !! i = Some x -> m !! j = Some y -> i <> j -> (2 <= size m)%nat.
Proof.
  intros Hi Hj Hne.
  pose proof (map_size_delete_Some i m (mk_is_Some _ _ Hi)) as Hs.
  assert (Hd : size (delete i m) <> 0%nat).
  { apply (map_size_ne_0_lookup_2 _ j). exists y.
    now rewrite lookup_delete_ne. }
  lia.
Qed.

Lemma other_key_of_size {A : Type} (m : gmap string A) (i : string) :
  (2 <= size m)%nat -> exists j, j <> i /\ is_Some (m !! j).
Proof.
  intros Hs.
  assert (Hd : size (delete i m) <> 0%nat).
  { rewrite map_size_delete. destruct (m !! i); cbn; lia. }
  apply map_size_ne_0_lookup_1 in Hd as [j [y Hj]].
  apply lookup_delete_Some in Hj as [Hne Hj]. exists j. split; [auto | eauto].
Qed.

End FilterMore.

(** X16: a parameter without documentation string breaks the filter: if the
    pattern is not found in its name, the predicate raises TypeError, and so
    do [ParamFilter] and, before any call of the pager, [info] on its path
    without visualization. *)
Theorem missing_doc_breaks_filter (ext : External) obj pattern k p :
  params obj !! k = Some p ->
  doc p = None ->
  re_search false pattern k = Ok false ->
  (forall text, exists b, re_search false pattern text = Ok b) ->
  regexp_filter pattern k p = Raise TypeError /\
  ParamFilter obj (Some (regexp_filter pattern)) = Raise TypeError /\
  forall ppager store ansi backend visualization plot_class,
    lookup_plot_class store backend obj = Ok plot_class ->
    visualization = false \/ plot_class = None ->
    info ppager store obj ansi backend visualization (Some pattern) =
    ([], Raise TypeError).
Proof.
  intros Hk Hdoc Hname Htotal.
  assert (Hp : regexp_filter pattern k p = Raise TypeError)
    by now apply regexp_filter_no_doc.
  assert (Hf : ParamFilter obj (Some (regexp_filter pattern)) = Raise TypeError).
  { unfold ParamFilter. cbv zeta.
    rewrite (filter_items_raise (regexp_filter pattern)
               (map_to_list (params obj)) TypeError); [reflexivity | |].
    - intros k' v' _. unfold regexp_filter.
      destruct (Htotal k') as [[|] ->]; cbn [bind]; [left; eauto |].
      destruct (doc v') as [d |]; [| now right].
      destruct (Htotal d) as [[|] ->]; cbn [bind]; left; eauto.
    - exists k, p. split; [| exact Hp].
      apply list_elem_of_In, elem_of_map_to_list. exact Hk. }
  split; [exact Hp | split; [exact Hf |]].
  intros * Hplot Hpath. unfold info. rewrite Hplot. cbn [tlift tbind].
  assert (Hcond : negb visualization
                  || match plot_class with None => true | Some _ => false end
                  = true).
  { destruct Hpath as [-> | ->]; [reflexivity | apply orb_true_r]. }
  now rewrite Hcond, Hf.
Qed.

(** A class whose parameter "beta" has no doc, and the pattern "zzz". *)
Lemma missing_doc_breaks_filter_witness :
  let obj := mkParameterized true "Bare"
               {[ "beta" := mkParameter None false ]} [] None in
  regexp_filter (ext := Literal.ext) "zzz" "beta" (mkParameter None false)
  = Raise TypeError /\
  ParamFilter (ext := Literal.ext) obj
              (Some (regexp_filter (ext := Literal.ext) "zzz"))
  = Raise TypeError /\
  info (ext := Literal.ext) true Literal.store obj false "matplotlib" true
       (Some "zzz") = ([], Raise TypeError).
Proof.
  intros obj.
  assert (H : params obj !! "beta" = Some (mkParameter None false))
    by (vm_compute; reflexivity).
  destruct (missing_doc_breaks_filter Literal.ext obj "zzz" "beta"
              (mkParameter None false) H eq_refl eq_refl
              (fun text => ex_intro _ _ eq_refl)) as (H1 & H2 & H3).
  split; [exact H1 | split; [exact H2 |]].
  apply (H3 true Literal.store false "matplotlib" true None).
  - vm_compute. reflexivity.
  - right. reflexivity.
Defined.

(** X17: a filtered object always has the parameter [name], so it never has
    fewer than one parameter; it has exactly one, which is what [info] and
    [get_parameter_info] test, when no other parameter of the object is
    accepted by the predicate. *)
Theorem proxy_size_threshold (ext : External) obj filter_fn proxy :
  ParamFilter obj (Some filter_fn) = Ok proxy ->
  (1 <= size (params proxy))%nat /\
  ((size (params proxy) <= 1)%nat <->
   forall k p, k <> "name" -> params obj !! k = Some p ->
               filter_fn k p <> Ok true).
Proof.
  intros H. destruct (ParamFilter_retains _ _ _ H) as [[q Hname] Hkeep].
  split.
  - pose proof (map_size_ne_0_lookup_2 (params proxy) "name"
                  (mk_is_Some _ _ Hname)). lia.
  - split.
    + intros Hsize k p Hne Hk Hf.
      assert (Hp : params proxy !! k = Some p) by (apply Hkeep; auto).
      pose proof (two_keys_size _ _ _ _ _ Hp Hname Hne). lia.
    + intros Hnone. destruct (Nat.le_gt_cases (size (params proxy)) 1)
        as [Hle | Hgt]; [exact Hle |].
      destruct (other_key_of_size (params proxy) "name") as (j & Hne & [y Hj]);
        [lia |].
      apply Hkeep in Hj as [Hobj Hf]; [| exact Hne].
      now destruct (Hnone j y Hne Hobj).
Qed.

(** [Demo] filtered with "bounds": two parameters are left. *)
Lemma proxy_size_threshold_witness :
  (1 <= size (params (class_proxy (ext := Literal.ext) "Demo"
                        [("alpha", Literal.alpha)])))%nat /\
  ((size (params (class_proxy (ext := Literal.ext) "Demo"
                    [("alpha", Literal.alpha)])) <= 1)%nat <->
   forall k p, k <> "name" -> params Literal.Demo !! k = Some p ->
               regexp_filter (ext := Literal.ext) "bounds" k p <> Ok true).
Proof.
  apply (proxy_size_threshold Literal.ext Literal.Demo
           (regexp_filter (ext := Literal.ext) "bounds")).
  vm_compute. reflexivity.
Defined.

(** X18: the proxy of an instance is an instance of a class with the same
    name, and the values it is given are exactly the values of the instance
    for the parameters that were kept and are not constant; the proxy of a
    class is a class and carries no values. *)
Theorem proxy_values (ext : External) obj filter_fn proxy :
  ParamFilter obj (Some filter_fn) = Ok proxy ->
  cls_name proxy = cls_name obj /\
  isclass proxy = isclass obj /\
  (isclass obj = true -> param_values proxy = []) /\
  (isclass obj = false ->
   forall k v,
     In (k, v) (param_values proxy) <->
     In (k, v) (param_values obj) /\
     exists p, params proxy !! k = Some p /\ constant p = false).
Proof.
  unfold ParamFilter. intros H. cbv zeta in H.
  apply bind_Ok_inv in H as (kept & _ & H).
  destruct (isclass obj) eqn:Hc; injection H as <-.
  - split; [reflexivity | split; [reflexivity | split]];
      [intros _; reflexivity | discriminate].
  - split; [reflexivity | split; [reflexivity | split]]; [discriminate |].
    intros _ k v. cbn [param_values params]. rewrite filter_In. split.
    + intros [Hin H]. split; [exact Hin |].
      destruct (_ !! k) as [p |]; [| discriminate]. exists p.
      split; [reflexivity |]. now apply negb_true_iff.
    + intros [Hin (p & Hp & Hconst)]. split; [exact Hin |].
      rewrite Hp. now apply negb_true_iff.
Qed.

(** An instance of [Demo] with values for "alpha" and "name". *)
Lemma proxy_values_witness :
  let obj := mkParameterized false "Demo" (params Literal.Demo)
               [("alpha", "0.5"); ("name", "Demo00001")] None in
  let proxy := mkParameterized false "Demo"
                 (params (class_proxy (ext := Literal.ext) "Demo"
                            [("alpha", Literal.alpha)]))
                 [("alpha", "0.5")] None in
  cls_name proxy = cls_name obj /\
  isclass proxy = isclass obj /\
  forall k v,
    In (k, v) (param_values proxy) <->
    In (k, v) (param_values obj) /\
    exists p, params proxy !! k = Some p /\ constant p = false.
Proof.
  intros obj proxy.
  assert (H : ParamFilter (ext := Literal.ext) obj
                (Some (regexp_filter (ext := Literal.ext) "bounds")) = Ok proxy)
    by (vm_compute; reflexivity).
  destruct (proxy_values Literal.ext obj _ proxy H) as (H1 & H2 & _ & H4).
  split; [exact H1 | split; [exact H2 |]]. apply H4. reflexivity.
Defined.



(** X20: on the path without visualization and without a pattern, [info]
    calls the pager exactly once, on the object itself, and returns its text,
    with the colour codes stripped unless colour is asked for.  With a
    pattern that leaves more than one parameter the single call is on the
    filtered proxy and the text is highlighted. *)
Theorem info_pager_call (ext : External) ppager store obj ansi backend
    visualization plot_class :
  lookup_plot_class store backend obj = Ok plot_class ->
  visualization = false \/ plot_class = None ->
  info ppager store obj ansi backend visualization None =
  ([PagerCall obj],
   if ansi then Ok (pager_call obj) else strip_ansi (pager_call obj)) /\
  forall pattern proxy,
    ParamFilter obj (Some (regexp_filter pattern)) = Ok proxy ->
    (1 < size (params proxy))%nat ->
    info ppager store obj ansi backend visualization (Some pattern) =
    ([PagerCall proxy],
     let* text := (if ansi then Ok (pager_call proxy)
                   else strip_ansi (pager_call proxy)) in
     highlight (Some pattern) text).
Proof.
  intros Hplot Hpath.
  assert (Hcond : negb visualization
                  || match plot_class with None => true | Some _ => false end
                  = true).
  { destruct Hpath as [-> | ->]; [reflexivity | apply orb_true_r]. }
  split.
  - unfold info. rewrite Hplot. cbn [tlift tbind]. rewrite Hcond.
    cbn [tbind tlift]. destruct ansi; cbn [negb].
    + reflexivity.
    + destruct (strip_ansi (pager_call obj)); reflexivity.
  - intros pattern proxy Hf Hsize. unfold info. rewrite Hplot.
    cbn [tlift tbind]. rewrite Hcond, Hf. cbn [tlift tbind].
    apply Nat.leb_gt in Hsize. rewrite Hsize. cbn [tbind tlift].
    destruct ansi; cbn [negb bind].
    + destruct (highlight (Some pattern) (pager_call proxy)); reflexivity.
    + destruct (strip_ansi (pager_call proxy)) as [text | |]; reflexivity.
Qed.

(** [Demo] without a pattern, and with the pattern "bounds". *)
Lemma info_pager_call_witness :
  info (ext := Literal.ext) true Literal.store Literal.Demo true "matplotlib"
       true None =
  ([PagerCall Literal.Demo], Ok "Parameters of Demo: alpha, name") /\
  info (ext := Literal.ext) true Literal.store Literal.Demo true "matplotlib"
       true (Some "bounds") =
  ([PagerCall (class_proxy (ext := Literal.ext) "Demo"
                 [("alpha", Literal.alpha)])],
   let* text := Ok (pager_call (External := Literal.ext)
                      (class_proxy (ext := Literal.ext) "Demo"
                         [("alpha", Literal.alpha)])) in
   highlight (ext := Literal.ext) (Some "bounds") text).
Proof.
  assert (Hl : lookup_plot_class Literal.store "matplotlib" Literal.Demo
               = Ok None) by (vm_compute; reflexivity).
  destruct (info_pager_call Literal.ext true Literal.store Literal.Demo true
              "matplotlib" true None Hl (or_intror eq_refl)) as [H1 H2].
  split.
  - rewrite H1. vm_compute. reflexivity.
  - apply H2.
    + vm_compute. reflexivity.
    + vm_compute. lia.
Defined.

Lemma merge_sort_same (l1 l2 : list string) :
  l1 ≡ₚ l2 -> merge_sort String.le l1 = merge_sort String.le l2.
Proof.
  intros Hp. apply (StronglySorted_unique String.le).
  - apply StronglySorted_merge_sort; apply _.
  - apply StronglySorted_merge_sort; apply _.
  - now rewrite !merge_sort_Permutation.
Qed.

Lemma summary_None_iff (singular plural : string) (l : list string) :
  summary singular plural l = None <-> l = [].
Proof.
  unfold summary. cbv zeta. split.
  - intros H. destruct l as [| t l]; [reflexivity |].
    assert (Ht : t ∈ remove_dups (t :: l))
      by (apply elem_of_remove_dups; now left).
    destruct (remove_dups (t :: l)) as [| a [| b r]];
      [inversion Ht | discriminate H | discriminate H].
  - now intros ->.
Qed.

(** X21: the summary of the targets depends only on which targets there are,
    not on how often or in which order the traversal meets them; it is
    absent exactly when there is no target. *)
Theorem summary_of_a_set (singular plural : string) (l1 l2 : list string) :
  (forall t, In t l1 <-> In t l2) ->
  summary singular plural l1 = summary singular plural l2 /\
  (summary singular plural l1 = None <-> l1 = []).
Proof.
  intros Hsame.
  assert (Hperm : remove_dups l1 ≡ₚ remove_dups l2).
  { apply NoDup_Permutation; try apply NoDup_remove_dups.
    intros t. rewrite !elem_of_remove_dups, !list_elem_of_In. apply Hsame. }
  split.
  - unfold summary. cbv zeta.
    rewrite <- (merge_sort_same _ _ Hperm).
    pose proof (Permutation_length Hperm) as Hlen.
    destruct (remove_dups l1) as [| a [| b r1]] eqn:E1,
             (remove_dups l2) as [| a' [| b' r2]] eqn:E2;
      try discriminate Hlen; try reflexivity.
    apply Permutation_singleton_inj in Hperm. now subst.
  - apply summary_None_iff.
Qed.

(** The summary of three targets met in two orders, one of them twice. *)
Lemma summary_of_a_set_witness :
  summary "Element: " "Elements:" ["Curve.A"; "Image.B"; "Curve.A"] =
  summary "Element: " "Elements:" ["Image.B"; "Curve.A"] /\
  (summary "Element: " "Elements:" ["Curve.A"; "Image.B"; "Curve.A"] = None <->
   ["Curve.A"; "Image.B"; "Curve.A"] = []).
Proof.
  apply (summary_of_a_set "Element: " "Elements:"
           ["Curve.A"; "Image.B"; "Curve.A"] ["Image.B"; "Curve.A"]).
  intros t. simpl. tauto.
Defined.

Lemma map_each_Forall2 {A B : Type} (fn : A -> outcome B) (items : list A)
    (r : list B) :
  map_each fn items = Ok r -> Forall2 (fun x y => fn x = Ok y) items r.
Proof.
  revert r. induction items as [| x xs IH]; intros r; cbn [map_each].
  - intros [= <-]. constructor.
  - intros H. apply bind_Ok_inv in H as (y & Hy & H).
    apply bind_Ok_inv in H as (ys & Hys & [= <-]). constructor; auto.
Qed.

Lemma summary_Some (singular plural : string) (t : string) (l : list string) :
  is_Some (summary singular plural (t :: l)).
Proof.
  destruct (summary singular plural (t :: l)) as [s |] eqn:E; [eauto |].
  apply summary_None_iff in E. discriminate E.
Qed.

(** X22: every target is an element target or a container target, never both
    and never neither, according to whether the object has [values].  Hence
    [target_info] of an instance always has a summary to print: once the
    traversal has visited an object and [get_target] has worked on all of
    them, it returns a text.  For a class it returns the empty string. *)
Theorem target_info_defined (ext : External) obj ansi :
  (forall element container,
      get_target obj = Ok (element, container) ->
      (is_Some element /\ container = None) \/
      (element = None /\ is_Some container)) /\
  (isclass obj = true -> target_info obj ansi = Ok "") /\
  (isclass obj = false ->
   forall targets,
     map_each get_target (traverse obj) = Ok targets ->
     targets <> [] ->
     exists text, target_info obj ansi = Ok text).
Proof.
  assert (Hx : forall o element container,
             get_target o = Ok (element, container) ->
             (is_Some element /\ container = None) \/
             (element = None /\ is_Some container)).
  { intros o element container. unfold get_target.
    destruct (hv o) as [h |]; [| discriminate].
    destruct (has_values h); intros [= <- <-]; [right | left]; eauto. }
  split; [apply Hx | split].
  - intros Hc. unfold target_info. now rewrite Hc.
  - intros Hc targets Hmap Hne. unfold target_info. rewrite Hc, Hmap.
    cbn [bind]. destruct targets as [| [element container] targets];
      [contradiction |].
    cbn [bind]. destruct (heading_level_0 "Target Specifications" "-" ansi)
      as [h ->]. cbn [bind].
    apply map_each_Forall2 in Hmap.
    destruct (traverse obj) as [| o os]; [inversion Hmap |].
    apply Forall2_cons_1 in Hmap as [Ho _].
    destruct (Hx _ _ _ Ho) as [[[t ->] ->] | [-> [t ->]]].
    + change (omap fst ((Some t, None) :: targets))
        with (t :: omap fst targets).
      destruct (summary_Some "Element: " "Elements:" t (omap fst targets))
        as [e ->].
      destruct (summary "Container: " "Containers:" _); eauto.
    + change (omap snd ((None, Some t) :: targets))
        with (t :: omap snd targets).
      destruct (summary_Some "Container: " "Containers:" t (omap snd targets))
        as [c ->].
      destruct (summary "Element: " "Elements:" _); eauto.
Qed.

(** A Curve with the group "Curve" and the label "A", traversed alone. *)
Lemma target_info_defined_witness :
  let curve := mkParameterized false "Curve" ∅ []
                 (Some (mkHv "Curve" "A" (Some false) false)) in
  ((is_Some (Some "Curve.Curve.A") /\ @None string = None) \/
   (Some "Curve.Curve.A" = None /\ is_Some (@None string))) /\
  exists text, target_info (ext := Literal.ext) curve false = Ok text.
Proof.
  intros curve.
  destruct (target_info_defined Literal.ext curve false) as (H1 & _ & H3).
  split.
  - apply H1. vm_compute. reflexivity.
  - apply (H3 eq_refl [(Some "Curve.Curve.A", None)]).
    + vm_compute. reflexivity.
    + discriminate.
Defined.

Example target_info_curve :
  target_info (ext := Literal.ext)
    (mkParameterized false "Curve" ∅ []
       (Some (mkHv "Curve" "A" (Some false) false))) false =
  Ok (Py.join Py.nl
        ["---------------------"; "Target Specifications";
         "---------------------"; "";
         "Targets in this object available for customization:"; "";
         "Element: Curve.Curve.A"; "";
         "To see the options info for one of these target specifications,";
         "which are of the form {type}[.{group}[.{label}]], do holoviews.help({type})."]).
Proof. vm_compute. reflexivity. Qed.

Section Idempotence.

Context {ext : External}.

Lemma ParamFilter_same_params obj filter_fn p1 p2 :
  ParamFilter obj (Some filter_fn) = Ok p1 ->
  ParamFilter p1 (Some filter_fn) = Ok p2 ->
  params p2 = params p1.
Proof.
  intros H1 H2. apply map_eq. intros k.
  destruct (decide (k = "name")) as [-> | Hne].
  - apply ParamFilter_params in H1 as (kept1 & Hk1 & E1 & _).
    apply ParamFilter_params in H2 as (kept2 & Hk2 & E2 & _).
    rewrite E2.
    destruct ((list_to_map kept2 : gmap string PyParameter) !! "name")
      as [q' |] eqn:L2.
    + rewrite (lookup_union_Some_l _ _ _ _ L2). symmetry.
      apply elem_of_list_to_map_2 in L2.
      apply (filter_items_elem _ _ _ Hk2) in L2 as [L2 _].
      now apply elem_of_map_to_list in L2.
    + rewrite (lookup_union_r _ _ _ L2), E1.
      destruct ((list_to_map kept1 : gmap string PyParameter) !! "name")
        as [q |] eqn:L1; [| now rewrite (lookup_union_r _ _ _ L1)].
      exfalso. apply not_elem_of_list_to_map_2 in L2. apply L2.
      assert (Hq : ("name", q) ∈ kept2).
      { apply (filter_items_elem _ _ _ Hk2). split.
        - apply elem_of_map_to_list. rewrite E1.
          now apply lookup_union_Some_l.
        - apply elem_of_list_to_map_2 in L1.
          now apply (filter_items_elem _ _ _ Hk1) in L1 as [_ L1]. }
      apply list_elem_of_fmap. now exists ("name", q).
  - destruct (ParamFilter_retains _ _ _ H1) as [_ K1].
    destruct (ParamFilter_retains _ _ _ H2) as [_ K2].
    apply option_eq. intros p. rewrite (K2 k p Hne). split.
    + now intros [H _].
    + intros H. split; [exact H |]. now apply (K1 k p Hne) in H as [_ H].
Qed.

Lemma filter_filter {A : Type} (f : A -> bool) (l : list A) :
  List.filter f (List.filter f l) = List.filter f l.
Proof.
  induction l as [| x l IH]; [reflexivity |]. cbn [List.filter].
  destruct (f x) eqn:E; [| exact IH]. cbn [List.filter]. now rewrite E, IH.
Qed.

End Idempotence.

(** X23: filtering is idempotent: filtering a filtered object once more with
    the same predicate returns the filtered object unchanged. *)
Theorem ParamFilter_idempotent (ext : External) obj filter_fn p1 p2 :
  ParamFilter obj (Some filter_fn) = Ok p1 ->
  ParamFilter p1 (Some filter_fn) = Ok p2 ->
  p2 = p1.
Proof.
  intros H1 H2. pose proof (ParamFilter_same_params _ _ _ _ H1 H2) as Hp.
  unfold ParamFilter in H1. cbv zeta in H1.
  apply bind_Ok_inv in H1 as (kept1 & _ & H1).
  destruct (isclass obj); injection H1 as <-.
  - unfold ParamFilter in H2. cbv zeta in H2.
    apply bind_Ok_inv in H2 as (kept2 & _ & H2).
    cbn [isclass class_proxy] in H2. injection H2 as <-.
    cbn [params class_proxy] in Hp. unfold class_proxy. cbn [cls_name].
    now rewrite Hp.
  - unfold ParamFilter in H2. cbv zeta in H2.
    apply bind_Ok_inv in H2 as (kept2 & _ & H2).
    cbn [isclass] in H2. injection H2 as <-.
    cbn [params class_proxy] in Hp. cbn [cls_name params param_values class_proxy].
    rewrite Hp. f_equal. apply filter_filter.
Qed.

(** [Demo] filtered twice with "bounds". *)
Lemma ParamFilter_idempotent_witness :
  class_proxy (ext := Literal.ext) "Demo" [("alpha", Literal.alpha)] =
  class_proxy (ext := Literal.ext) "Demo" [("alpha", Literal.alpha)].
Proof.
  apply (ParamFilter_idempotent Literal.ext Literal.Demo
           (regexp_filter (ext := Literal.ext) "bounds")).
  - vm_compute. reflexivity.
  - vm_compute. reflexivity.
Defined.

(** X24: with the pager disabled [get_parameter_info] returns the empty
    string at once: the pager is not called and the filter is not run, so no
    pattern can make it fail.  The options block then ends with the sentence
    that announces the plot options, followed by nothing. *)
Theorem pager_disabled (ext : External) ansi pattern :
  (forall obj show_values,
      get_parameter_info false obj ansi show_values pattern =
      ([], Ok (Some ""))) /\
  (forall plot_class,
      exists body,
        options_info false plot_class ansi pattern =
        ([], Ok (body +:+ Py.nl
                      +:+ ("The plot options are the parameters of the plotting class:"
                           +:+ Py.nl)
                      +:+ Py.nl +:+ ""))).
Proof.
  split; [reflexivity |]. intros plot_class.
  unfold options_info, get_parameter_info. cbn [negb tret tbind].
  destruct (heading_level_0 "Style Options" "-" ansi) as [hs ->].
  destruct (heading_level_0 "Plot Options" "-" ansi) as [hp ->].
  cbn [tlift tbind tret].
  match goal with
  | |- context [Py.join _ ((?x :: ?l) ++ [?a; ?b])] =>
      exists (Py.join Py.nl (x :: l)); rewrite (join_app_two Py.nl x l a b)
  end.
  reflexivity.
Qed.
